(** * Kenya energy dashboard: acquisition and normalisation pipeline

    A shallow embedding of the two functions of [energy_dashboard.py] that
    carry the data pipeline, [get_kenya_power_data] and
    [process_kenya_data], of the renewable-share aggregate and of the
    detailed table that the page derives from their output.

    Values.  The decoded response body is an arbitrary JSON value as
    Python holds it: [None], a number, a string, a list or a dict.  A
    number is a [bool], an unbounded [int] or a binary64 [float].

    Arithmetic.  [int] arithmetic is exact.  A [float] is [nan], an
    infinity or a signed magnitude; every float operation returns the
    exact result rounded to the nearest binary64 number, halves to the
    even neighbour, overflowing to infinity (IEEE 754).  Mixed operations
    convert the [int] operand first and raise [OverflowError] when it is
    too large; true division raises [ZeroDivisionError] on a zero divisor.
    The builtin [sum] adds from left to right.

    Effects.  The clock ([datetime.now().isoformat()]) is an explicit
    argument, the HTTP exchange is an explicit description of what the
    request did, the warnings sent to the page are returned as a list, and
    exceptions are an error monad. *)

From Stdlib Require Import QArith Qabs Qround Qpower Lqa Ascii String.
From Stdlib Require Import PrimFloat SpecFloat FloatOps.
From stdpp Require Import gmap strings list sorting.

Local Open Scope string_scope.
Local Open Scope list_scope.

(** ** Binary64 numbers *)

(** The nearest integer, a half going to the even neighbour. *)
Definition rint (x : Q) : Z :=
  let f := Qfloor x in
  match (x - inject_Z f ?= 1 # 2)%Q with
  | Lt => f
  | Gt => (f + 1)%Z
  | Eq => if Z.even f then f else (f + 1)%Z
  end.

Module F64.

(** A float: [nan], an infinity, or a sign and a magnitude (a zero
    magnitude gives the two signed zeros). *)
Inductive t : Type :=
| NaN
| Inf (negative : bool)
| Fin (negative : bool) (magnitude : Q).

Definition pow2 (k : Z) : Q := (2 ^ k)%Q.

(** [floor (log2 a)] for [a > 0]. *)
Definition ilog2 (a : Q) : Z :=
  let k := (Z.log2 (Qnum a) - Z.log2 (Zpos (Qden a)))%Z in
  if Qle_bool (pow2 k) a then k else (k - 1)%Z.

(** The spacing of the binary64 numbers around [a]: 53 significant bits,
    and never finer than the subnormal spacing [2^-1074]. *)
Definition quantum (a : Q) : Q := pow2 (Z.max (ilog2 a - 52) (-1074)).

(** Rounding of an exact magnitude to the nearest binary64 magnitude,
    halves to even; [None] when the result is [2^1024] or more. *)
Definition round_mag (a : Q) : option Q :=
  if Qeq_bool a 0 then Some 0%Q
  else
    let r := Qred (inject_Z (rint (a / quantum a)) * quantum a) in
    if Qle_bool (pow2 1024) r then None else Some r.

Definition rounded (negative : bool) (a : Q) : t :=
  match round_mag a with
  | Some r => Fin negative r
  | None => Inf negative
  end.

Definition signed (negative : bool) (a : Q) : Q :=
  if negative then (- a)%Q else a.

(** The binary64 number nearest to a rational: how a decimal literal of
    the program or of a JSON document is read. *)
Definition of_Q (q : Q) : t := rounded (negb (Qle_bool 0 q)) (Qabs q).

Definition add (x y : t) : t :=
  match x, y with
  | NaN, _ | _, NaN => NaN
  | Inf s, Inf s' => if Bool.eqb s s' then Inf s else NaN
  | Inf s, Fin _ _ | Fin _ _, Inf s => Inf s
  | Fin s a, Fin s' b =>
      let sum := (signed s a + signed s' b)%Q in
      if Qeq_bool sum 0
      then Fin (if Qeq_bool a 0 then s && s' else false) 0
      else rounded (negb (Qle_bool 0 sum)) (Qabs sum)
  end.

Definition mul (x y : t) : t :=
  match x, y with
  | NaN, _ | _, NaN => NaN
  | Inf s, Inf s' => Inf (xorb s s')
  | Inf s, Fin s' b | Fin s' b, Inf s =>
      if Qeq_bool b 0 then NaN else Inf (xorb s s')
  | Fin s a, Fin s' b => rounded (xorb s s') (a * b)
  end.

Definition div (x y : t) : t :=
  match x, y with
  | NaN, _ | _, NaN => NaN
  | Inf _, Inf _ => NaN
  | Inf s, Fin s' _ => Inf (xorb s s')
  | Fin s _, Inf s' => Fin (xorb s s') 0
  | Fin s a, Fin s' b =>
      if Qeq_bool b 0
      then (if Qeq_bool a 0 then NaN else Inf (xorb s s'))
      else rounded (xorb s s') (a / b)
  end.

Definition is_zero (x : t) : bool :=
  match x with
  | Fin _ a => Qeq_bool a 0
  | _ => false
  end.

Definition is_nan (x : t) : bool :=
  match x with
  | NaN => true
  | _ => false
  end.

(** [x < y]; false as soon as one side is [nan]. *)
Definition lt (x y : t) : bool :=
  match x, y with
  | NaN, _ | _, NaN => false
  | Inf s, Inf s' => s && negb s'
  | Inf s, Fin _ _ => s
  | Fin _ _, Inf s' => negb s'
  | Fin s a, Fin s' b => negb (Qle_bool (signed s' b) (signed s a))
  end.

(** [numpy.rint] on one cell. *)
Definition rint (x : t) : t :=
  match x with
  | Fin s a => Fin s (inject_Z (rint a))
  | _ => x
  end.

(** A binary64 number in the form the operations return it: rounding
    leaves the magnitude as it is. *)
Definition valid (x : t) : Prop :=
  match x with
  | Fin _ a => (0 <= a)%Q /\ round_mag a = Some a
  | _ => True
  end.

End F64.

(** The same numbers as the kernel's primitive floats hold them, which
    are the binary64 numbers of the machine: a yardstick for the
    operations above. *)
Definition of_SF (x : spec_float) : F64.t :=
  match x with
  | S754_zero s => F64.Fin s 0
  | S754_infinity s => F64.Inf s
  | S754_nan => F64.NaN
  | S754_finite s m e => F64.Fin s (Qred (inject_Z (Zpos m) * F64.pow2 e))
  end.

Definition of_prim (x : float) : F64.t := of_SF (Prim2SF x).

(** ** Python values, exceptions and operators *)

Module Py.

Inductive kind : Type :=
| ZeroDivisionError
| OverflowError
| KeyError
| TypeError
| AttributeError
| Exception.

(** A raised exception: its class ([Exception] stands for any other
    subclass of Python's [Exception], such as a timeout, a connection
    error or a JSON decoding error) and the text [str(e)] gives. *)
Inductive exn : Type :=
| Raised (k : kind) (msg : string).

Definition str (e : exn) : string :=
  match e with
  | Raised _ msg => msg
  end.

Inductive result (A : Type) : Type :=
| Return (a : A)
| Raise (e : exn).
Arguments Return {A} a.
Arguments Raise {A} e.

Definition bind {A B} (m : result A) (k : A -> result B) : result B :=
  match m with
  | Return a => k a
  | Raise e => Raise e
  end.

(** [for x in xs: ...] where the body rebuilds each element. *)
Fixpoint for_each {A B} (body : A -> result B) (xs : list A)
  : result (list B) :=
  match xs with
  | [] => Return []
  | x :: xs' =>
      bind (body x) (fun y =>
      bind (for_each body xs') (fun ys => Return (y :: ys)))
  end.

(** [for x in xs: state = body(state, x)] *)
Fixpoint for_state {S A} (body : S -> A -> result S) (xs : list A) (state : S)
  : result S :=
  match xs with
  | [] => Return state
  | x :: xs' => bind (body state x) (for_state body xs')
  end.

(** Numbers: [bool] is a subclass of [int]. *)
Inductive num : Type :=
| NBool (b : bool)
| NInt (n : Z)
| NFloat (x : F64.t).

(** The value of a number that is an [int] (or a [bool]). *)
Definition as_int (a : num) : option Z :=
  match a with
  | NBool b => Some (Z.b2z b)
  | NInt n => Some n
  | NFloat _ => None
  end.

(** [float(n)] for an [int]. *)
Definition float_of_int (n : Z) : result F64.t :=
  match F64.round_mag (inject_Z (Z.abs n)) with
  | Some r => Return (F64.Fin (n <? 0)%Z r)
  | None => Raise (Raised OverflowError "int too large to convert to float")
  end.

(** The conversion of an operand of a mixed operation. *)
Definition to_float (a : num) : result F64.t :=
  match a with
  | NFloat x => Return x
  | NBool b => float_of_int (Z.b2z b)
  | NInt n => float_of_int n
  end.

(** The exact value of a number, for comparisons: Python compares an
    [int] with a [float] without rounding the [int]. *)
Definition exact (a : num) : F64.t :=
  match a with
  | NFloat x => x
  | NBool b => F64.Fin false (inject_Z (Z.b2z b))
  | NInt n => F64.Fin (n <? 0)%Z (inject_Z (Z.abs n))
  end.

(** [a + b] *)
Definition add (a b : num) : result num :=
  match as_int a, as_int b with
  | Some x, Some y => Return (NInt (x + y))
  | _, _ =>
      bind (to_float a) (fun x =>
      bind (to_float b) (fun y => Return (NFloat (F64.add x y))))
  end.

(** [a * b] *)
Definition mul (a b : num) : result num :=
  match as_int a, as_int b with
  | Some x, Some y => Return (NInt (x * y))
  | _, _ =>
      bind (to_float a) (fun x =>
      bind (to_float b) (fun y => Return (NFloat (F64.mul x y))))
  end.

(** [a / b]: true division always gives a [float]. *)
Definition truediv (a b : num) : result num :=
  match as_int a, as_int b with
  | Some x, Some y =>
      if (y =? 0)%Z then Raise (Raised ZeroDivisionError "division by zero")
      else
        match F64.round_mag (Qabs (inject_Z x / inject_Z y)) with
        | Some r => Return (NFloat (F64.Fin (xorb (x <? 0)%Z (y <? 0)%Z) r))
        | None =>
            Raise (Raised OverflowError
                          "integer division result too large for a float")
        end
  | _, _ =>
      bind (to_float a) (fun x =>
      bind (to_float b) (fun y =>
        if F64.is_zero y
        then Raise (Raised ZeroDivisionError "float division by zero")
        else Return (NFloat (F64.div x y))))
  end.

(** [a > b] on numbers. *)
Definition gt (a b : num) : bool := F64.lt (exact b) (exact a).

(** The builtin [sum(xs)]: left-to-right accumulation from the [int]
    [0] (CPython up to 3.11; later versions compensate float sums). *)
Definition sum (xs : list num) : result num :=
  for_state add xs (NInt 0).

(** A value decoded from JSON. *)
#[warnings="-register-all"]
Inductive value : Type :=
| None_
| Num (a : num)
| Str (s : string)
| List (items : list value)
| Dict (entries : list (string * value)).

(** [type(v).__name__] *)
Definition type_name (v : value) : string :=
  match v with
  | None_ => "NoneType"
  | Num (NBool _) => "bool"
  | Num (NInt _) => "int"
  | Num (NFloat _) => "float"
  | Str _ => "str"
  | List _ => "list"
  | Dict _ => "dict"
  end.

(** Truth value: [None], zero, and the empty string, list and dict are
    false. *)
Definition truthy (v : value) : bool :=
  match v with
  | None_ => false
  | Num (NBool b) => b
  | Num (NInt n) => negb (n =? 0)%Z
  | Num (NFloat x) => negb (F64.is_zero x)
  | Str s => negb (String.eqb s "")
  | List items => match items with [] => false | _ => true end
  | Dict entries => match entries with [] => false | _ => true end
  end.

(** Lookup of a key in the entries of a dict (the keys of a dict are
    distinct). *)
Fixpoint lookup (key : string) (entries : list (string * value))
  : option value :=
  match entries with
  | [] => None
  | (k, v) :: rest => if String.eqb k key then Some v else lookup key rest
  end.

(** [key in s] for two strings: [key] occurs in [s]. *)
Fixpoint occurs_in (key s : string) : bool :=
  String.prefix key s
  || match s with
     | EmptyString => false
     | String _ rest => occurs_in key rest
     end.

(** [key in v] for a string [key]. *)
Definition contains (key : string) (v : value) : result bool :=
  match v with
  | Dict entries => Return (bool_decide (is_Some (lookup key entries)))
  | List items =>
      Return (existsb (fun item => match item with
                                   | Str s => String.eqb s key
                                   | _ => false
                                   end) items)
  | Str s => Return (occurs_in key s)
  | _ =>
      Raise (Raised TypeError
               ("argument of type '" +:+ type_name v +:+ "' is not iterable"))
  end.

(** [v[key]] for a string [key]. *)
Definition subscript (v : value) (key : string) : result value :=
  match v with
  | Dict entries =>
      match lookup key entries with
      | Some x => Return x
      | None => Raise (Raised KeyError ("'" +:+ key +:+ "'"))
      end
  | List _ =>
      Raise (Raised TypeError
                    "list indices must be integers or slices, not str")
  | Str _ => Raise (Raised TypeError "string indices must be integers")
  | _ =>
      Raise (Raised TypeError
               ("'" +:+ type_name v +:+ "' object is not subscriptable"))
  end.

Definition no_attribute (v : value) (attribute : string) : exn :=
  Raised AttributeError
         ("'" +:+ type_name v +:+ "' object has no attribute '"
              +:+ attribute +:+ "'").

(** [v.get(key, otherwise)] *)
Definition get (v : value) (key : string) (otherwise : value) : result value :=
  match v with
  | Dict entries => Return (default otherwise (lookup key entries))
  | _ => Raise (no_attribute v "get")
  end.

(** [v.items()] *)
Definition items (v : value) : result (list (string * value)) :=
  match v with
  | Dict entries => Return entries
  | _ => Raise (no_attribute v "items")
  end.

(** [v > 0] for a decoded value. *)
Definition gt_zero (v : value) : result bool :=
  match v with
  | Num a => Return (gt a (NInt 0))
  | _ =>
      Raise (Raised TypeError
               ("'>' not supported between instances of '"
                  +:+ type_name v +:+ "' and 'int'"))
  end.

(** *** [str.title()]

    CPython walks the string once: a character that follows a cased
    character is lower-cased, any other character is title-cased, and
    the flag is then set to whether the character is cased.  The model
    covers the ASCII letters; every other character is left unchanged
    and counts as uncased. *)

Definition is_upper (c : ascii) : bool :=
  let n := nat_of_ascii c in (65 <=? n)%nat && (n <=? 90)%nat.

Definition is_lower (c : ascii) : bool :=
  let n := nat_of_ascii c in (97 <=? n)%nat && (n <=? 122)%nat.

Definition is_cased (c : ascii) : bool := is_upper c || is_lower c.

Definition to_lower (c : ascii) : ascii :=
  if is_upper c then ascii_of_nat (nat_of_ascii c + 32) else c.

Definition to_upper (c : ascii) : ascii :=
  if is_lower c then ascii_of_nat (nat_of_ascii c - 32) else c.

Fixpoint title_from (previous_is_cased : bool) (s : string) : string :=
  match s with
  | EmptyString => EmptyString
  | String c rest =>
      String (if previous_is_cased then to_lower c else to_upper c)
             (title_from (is_cased c) rest)
  end.

Definition title (s : string) : string := title_from false s.

End Py.

#[export] Instance result_ret : MRet Py.result := @Py.Return.
#[export] Instance result_bind : MBind Py.result :=
  fun A B k m => Py.bind m k.

(** A [float] and an [int] literal of the program. *)
Definition float_lit (q : Q) : Py.num := Py.NFloat (F64.of_Q q).
Definition int_lit (n : Z) : Py.num := Py.NInt n.

(** ** Data model *)

(** One element of [records]: the dict
    [{"source": ..., "value": ..., "percentage": ...}]. *)
Record PowerRecord : Type := mkRecord {
  source : string;
  value : Py.num;
  percentage : Py.num
}.

(** What [process_kenya_data] returns:
    [(records, timestamp, total, data_source)]. *)
Definition SnapshotResult : Type :=
  (list PowerRecord * Py.value * Py.num * string)%type.

Definition records_of (r : SnapshotResult) : list PowerRecord := r.1.1.1.
Definition timestamp_of (r : SnapshotResult) : Py.value := r.1.1.2.
Definition total_of (r : SnapshotResult) : Py.num := r.1.2.
Definition data_source_of (r : SnapshotResult) : string := r.2.

(** [KENYA_ENERGY_MIX], a dict literal; iteration follows insertion order. *)
Definition KENYA_ENERGY_MIX : list (string * Py.num) :=
  [ ("Hydro", float_lit 36.2); ("Geothermal", float_lit 31.1);
    ("Thermal (Oil/Gas)", float_lit 12.7); ("Wind", float_lit 8.9);
    ("Solar", float_lit 6.8); ("Biomass", float_lit 2.1);
    ("Battery Storage", float_lit 1.2); ("Imports", float_lit 1.0) ].

(** The local dict [source_mappings] of [process_kenya_data]; it is only
    looked up by key. *)
Definition source_mappings : gmap string string :=
  list_to_map
    [ ("hydro", "Hydro"); ("geothermal", "Geothermal");
      ("oil", "Thermal (Oil)"); ("gas", "Natural Gas");
      ("wind", "Wind"); ("solar", "Solar"); ("biomass", "Biomass");
      ("battery", "Battery Storage"); ("coal", "Coal");
      ("nuclear", "Nuclear"); ("unknown", "Other") ].

(** ** Data acquisition *)

(** What the HTTP layer does for one call.  [requests.get] either raises
    or returns a response; [response.json()] either raises or returns the
    decoded body. *)
Record Response : Type := mkResponse {
  status_code : Z;
  json : Py.result Py.value
}.

(** The body of the [try] block of [get_kenya_power_data]; [None] in the
    first component is Python's [None]. *)
Definition get_kenya_power_data_try (requests_get : Py.result Response)
  : Py.result (Py.value * bool) :=
  response ← requests_get;
  if (status_code response =? 200)%Z then
    data ← json response;
    found ← Py.contains "powerProductionBreakdown" data;
    if (found : bool) then mret (data, true)
    else mret (Py.None_, false)
  else mret (Py.None_, false).

(** [get_kenya_power_data]: the returned pair, and the warnings passed to
    [st.warning] on the way. *)
Definition get_kenya_power_data (requests_get : Py.result Response)
  : (Py.value * bool) * list string :=
  match get_kenya_power_data_try requests_get with
  | Py.Return r => (r, [])
  | Py.Raise e => ((Py.None_, false), ["Live data unavailable: " +:+ Py.str e])
  end.

(** ** Normalisation *)

(** [source_mappings.get(source, source.title())] *)
Definition display_name (source : string) : string :=
  default (Py.title source) (source_mappings !! source).

(** The condition of the [if]:
    [use_live and api_data and 'powerProductionBreakdown' in api_data];
    [and] stops at the first false operand. *)
Definition live_condition (api_data : Py.value) (use_live : bool)
  : Py.result bool :=
  if use_live then
    if Py.truthy api_data
    then Py.contains "powerProductionBreakdown" api_data
    else mret false
  else mret false.

(** The first loop of the live branch: one iteration over an item of
    [mix.items()], on the state [(records, total)]. *)
Definition collect (state : list PowerRecord * Py.num)
    (item : string * Py.value) : Py.result (list PowerRecord * Py.num) :=
  let '(records, total) := state in
  let '(raw, entry) := item in
  match entry with
  | Py.None_ => mret (records, total)
  | _ =>
      positive ← Py.gt_zero entry;
      match positive, entry with
      | true, Py.Num v =>
          let records :=
            records ++ [mkRecord (display_name raw) v (int_lit 0)] in
          total ← Py.add total v;
          mret (records, total)
      | _, _ => mret (records, total)
      end
  end.

(** The second loop of the live branch: the assignment to
    [record["percentage"]]. *)
Definition set_percentage (total : Py.num) (record : PowerRecord)
  : Py.result PowerRecord :=
  p ← (if Py.gt total (int_lit 0)
       then q ← Py.truediv (value record) total; Py.mul q (int_lit 100)
       else mret (int_lit 0));
  mret (mkRecord (source record) (value record) p).

(** The body of the fallback loop. *)
Definition estimate (item : string * Py.num) : Py.result PowerRecord :=
  let '(name, pct) := item in
  q ← Py.truediv pct (int_lit 100);
  estimated_mw ← Py.mul q (int_lit 2800);
  mret (mkRecord name estimated_mw pct).

(** [process_kenya_data(api_data, use_live)]; [now] is the value of
    [datetime.now().isoformat()] at the call. *)
Definition process_kenya_data (api_data : Py.value) (use_live : bool)
    (now : string) : Py.result SnapshotResult :=
  live ← live_condition api_data use_live;
  if (live : bool) then
    mix ← Py.subscript api_data "powerProductionBreakdown";
    timestamp ← Py.get api_data "datetime" (Py.Str now);
    entries ← Py.items mix;
    state ← Py.for_state collect entries ([], int_lit 0);
    let '(records, total) := state in
    records ← Py.for_each (set_percentage total) records;
    mret (records, timestamp, total, "Live Data")
  else
    total ← Py.sum (map snd KENYA_ENERGY_MIX);
    records ← Py.for_each estimate KENYA_ENERGY_MIX;
    let timestamp := Py.Str now in
    total ← Py.mul total (int_lit 28);
    mret (records, timestamp, total, "Estimated Data").

(** ** Renewable share (the metric of the second column) *)

Definition renewable_sources : list string :=
  ["Hydro"; "Geothermal"; "Wind"; "Solar"; "Biomass"].

(** [sum([r['percentage'] for r in records
          if r['source'] in renewable_sources])] *)
Definition renewable_pct (records : list PowerRecord) : Py.result Py.num :=
  Py.sum (map percentage
            (filter (λ r, source r ∈ renewable_sources) records)).

(** The page: fetch, then normalise what the fetch returned. *)
Definition dashboard (requests_get : Py.result Response) (now : string)
  : Py.result SnapshotResult :=
  let '(api_data, has_live_data) := (get_kenya_power_data requests_get).1 in
  process_kenya_data api_data has_live_data now.

(** ** The detailed breakdown table of the page *)




(** [numpy.round] on one float64 element: [rint(x)] for no decimals,
    [rint(x * 10**decimals) / 10**decimals] otherwise, each operation
    rounded. *)
Definition round_float (decimals : nat) (x : F64.t) : F64.t :=
  match decimals with
  | O => F64.rint x
  | _ =>
      let scale := F64.of_Q (inject_Z (10 ^ Z.of_nat decimals)) in
      F64.div (F64.rint (F64.mul x scale)) scale
  end.


(** A row of [display_df]: the record as stored, and the two columns
    added to it, ['Generation (MW)'] and ['Share (%)']. *)
Record DisplayRow : Type := mkRow {
  record : PowerRecord;
  generation_mw : Py.num;
  share_pct : Py.num
}.


(** The order of a descending sort: [x] may stand before [y] when [y] is
    [nan], which goes last, or when neither is [nan] and [x] is not
    smaller. *)
Definition desc (x y : F64.t) : Prop :=
  F64.is_nan y = true \/ (F64.is_nan x = false /\ F64.lt x y = false).

#[export] Instance desc_dec x y : Decision (desc x y).
Proof. unfold desc. apply _. Defined.

Definition by_percentage_desc (a b : DisplayRow) : Prop :=
  desc (Py.exact (percentage (record a))) (Py.exact (percentage (record b))).

#[export] Instance by_percentage_desc_dec a b :
  Decision (by_percentage_desc a b).
Proof. unfold by_percentage_desc. apply _. Defined.




(** * Vocabulary of the statements and of the proofs *)

(** ** Tactics *)

(** Turning a comparison result into the order it stands for. *)
Ltac order_of_compare H :=
  match type of H with
  | (_ ?= _)%Q = Eq => apply Qeq_alt in H
  | (_ ?= _)%Q = Lt => apply Qlt_alt in H
  | (_ ?= _)%Q = Gt => apply Qgt_alt in H
  end.

(** ** The grid of binary64 *)

(** Binary64 magnitudes are multiples of [2^-1074]. *)
Definition on_grid (a : Q) : Prop :=
  exists k : Z, (a == inject_Z k * F64.pow2 (-1074))%Q.

(** ** Entries, records and the two branches *)

Definition breakdown_key : string := "powerProductionBreakdown".

(** An entry of the breakdown that is a number greater than [0]. *)
Definition strictly_positive (entry : Py.value) : Prop :=
  match entry with
  | Py.Num a => Py.gt a (int_lit 0) = true
  | _ => False
  end.

#[export] Instance strictly_positive_dec entry :
  Decision (strictly_positive entry).
Proof.
  destruct entry as [|a| | |]; simpl; try (right; tauto).
  destruct (Py.gt a (int_lit 0)); [left; reflexivity | right; discriminate].
Defined.

(** An entry the first loop can handle: [None] or a number. *)
Definition none_or_number (entry : Py.value) : Prop :=
  entry = Py.None_ \/ exists a, entry = Py.Num a.

(** The numbers the first loop keeps, with their raw codes, in order. *)
Definition kept (mix : list (string * Py.value)) : list (string * Py.num) :=
  omap (λ item,
          match item.2 with
          | Py.Num a => if Py.gt a (int_lit 0) then Some (item.1, a) else None
          | _ => None
          end) mix.

(** The record the first loop appends for a kept number. *)
Definition fresh_record (kv : string * Py.num) : PowerRecord :=
  mkRecord (display_name kv.1) kv.2 (int_lit 0).

(** The live branch from the first loop on. *)
Definition live_run (mix : list (string * Py.value)) (timestamp : Py.value)
  : Py.result SnapshotResult :=
  state ← Py.for_state collect mix ([], int_lit 0);
  let '(records, total) := state in
  records ← Py.for_each (set_percentage total) records;
  mret (records, timestamp, total, "Live Data").

(** The fallback branch. *)
Definition fallback_run (now : string) : Py.result SnapshotResult :=
  total ← Py.sum (map snd KENYA_ENERGY_MIX);
  records ← Py.for_each estimate KENYA_ENERGY_MIX;
  let timestamp := Py.Str now in
  total ← Py.mul total (int_lit 28);
  mret (records, timestamp, total, "Estimated Data").

(** A payload that holds the breakdown [mix] and, optionally, a
    timestamp. *)
Definition payload (mix : list (string * Py.value)) (timestamp : option string)
  : Py.value :=
  Py.Dict ((breakdown_key, Py.Dict mix)
             :: match timestamp with
                | Some t => [("datetime", Py.Str t)]
                | None => []
                end).

(** The example of the specification (Scenario A). *)
Definition scenario_a_mix : list (string * Py.value) :=
  [ ("hydro", Py.Num (int_lit 800)); ("geothermal", Py.Num (int_lit 700));
    ("wind", Py.Num (int_lit 0)); ("solar", Py.Num (int_lit (-5))) ].

Definition scenario_a : Py.value :=
  payload scenario_a_mix (Some "2024-05-01T12:00:00Z").

(** What the specification expects for Scenario A, with the percentages
    as binary64 computes them. *)
Definition scenario_a_snapshot : SnapshotResult :=
  ([ mkRecord "Hydro" (int_lit 800) (float_lit 53.333333333333336);
     mkRecord "Geothermal" (int_lit 700) (float_lit 46.666666666666664) ],
   Py.Str "2024-05-01T12:00:00Z", int_lit 1500, "Live Data").

Definition fallback_records : list PowerRecord :=
  [ mkRecord "Hydro" (float_lit 1013.6000000000001) (float_lit 36.2);
    mkRecord "Geothermal" (float_lit 870.8) (float_lit 31.1);
    mkRecord "Thermal (Oil/Gas)" (float_lit 355.6) (float_lit 12.7);
    mkRecord "Wind" (float_lit 249.20000000000002) (float_lit 8.9);
    mkRecord "Solar" (float_lit 190.4) (float_lit 6.8);
    mkRecord "Biomass" (float_lit 58.800000000000004) (float_lit 2.1);
    mkRecord "Battery Storage" (float_lit 33.6) (float_lit 1.2);
    mkRecord "Imports" (float_lit 28) (float_lit 1.0) ].

Definition fallback_total : Py.num := float_lit 2800.0000000000005.

(** ** Numbers and sums *)

(** The sum of the numbers of a list that are [int]s. *)
Definition integer_total (vs : list Py.num) : Z :=
  foldr (λ v acc, (default 0 (Py.as_int v) + acc)%Z) 0%Z vs.

Definition is_integer (v : Py.num) : Prop := is_Some (Py.as_int v).

#[export] Instance is_integer_dec v : Decision (is_integer v).
Proof. unfold is_integer. apply _. Defined.

(** The real number a finite number stands for. *)
Definition real_of (a : Py.num) : Q :=
  match a with
  | Py.NBool b => inject_Z (Z.b2z b)
  | Py.NInt n => inject_Z n
  | Py.NFloat (F64.Fin s a) => F64.signed s a
  | Py.NFloat _ => 0
  end.

(** A breakdown on which the live branch returns: every entry is [None]
    or a number, and either no entry greater than [0] is a [float], or
    the [int] entries greater than [0] add up to less than [2^1023], so
    that each of them, and each partial sum, has a [float]. *)
Definition summable (mix : list (string * Py.value)) : Prop :=
  Forall (λ item, none_or_number item.2) mix
  /\ (Forall is_integer (map snd (kept mix))
      \/ (integer_total (map snd (kept mix)) < 2 ^ 1023)%Z).

(** ** Rounding errors *)

(** Half the spacing of binary64 relative to the value, and half the
    spacing of the subnormal numbers. *)
Definition unit_roundoff : Q := F64.pow2 (-53).
Definition underflow : Q := F64.pow2 (-1075).

(** [b] is [a] up to the relative error [e] and the absolute error [d],
    in both directions. *)
Definition near (e d a b : Q) : Prop :=
  (a * (1 - e) - d <= b)%Q /\ (b * (1 - e) - d <= a)%Q.

Definition Qsum (xs : list Q) : Q := foldr Qplus 0%Q xs.

(** A number that stands for a quantity that is not negative and is
    finite: a [bool], an [int] from [0] on, a [float] with the sign [+]
    and a magnitude on the grid of binary64. *)
Definition nonneg_number (a : Py.num) : Prop :=
  match a with
  | Py.NBool _ => True
  | Py.NInt n => (0 <= n)%Z
  | Py.NFloat (F64.Fin false m) => (0 <= m)%Q /\ on_grid m
  | Py.NFloat _ => False
  end.

(** A number as JSON decoding gives it, when it is not an infinity or a
    [nan]: any [bool] or [int], or a binary64 number. *)
Definition finite_number (a : Py.num) : Prop :=
  match a with
  | Py.NFloat (F64.Fin s m) => F64.valid (F64.Fin s m)
  | Py.NFloat _ => False
  | _ => True
  end.

(** What a record of the live branch holds for the entry [kv], under the
    total [total] whose exact counterpart is [S]: the name, the value,
    and the percentage [value / total * 100] of binary64, which is near
    the exact share. *)
Definition live_record (total : Py.num) (S e : Q)
    (kv : string * Py.num) (r : PowerRecord) : Prop :=
  source r = display_name kv.1
  /\ value r = kv.2
  /\ (q ← Py.truediv kv.2 total; Py.mul q (int_lit 100))
     = Py.Return (percentage r)
  /\ exists p,
      percentage r = Py.NFloat (F64.Fin false p)
      /\ (0 <= p)%Q /\ on_grid p
      /\ near (e + 4 * unit_roundoff) (101 * underflow)
              (100 * (real_of kv.2 / S)) p.

(** The exact sum of the entries greater than [0]. *)
Definition exact_total (mix : list (string * Py.value)) : Q :=
  Qsum (map (λ kv, real_of kv.2) (kept mix)).

(** The number of entries greater than [0], as a rational. *)
Definition kept_count (mix : list (string * Py.value)) : Q :=
  inject_Z (Z.of_nat (length (kept mix))).

(** The hypotheses of the error bounds: every entry is [None] or a
    number, the entries greater than [0] are finite, there are at most a
    million of them, and their exact sum is below [2^1022]. *)
Definition within_range (mix : list (string * Py.value)) : Prop :=
  Forall (λ item, none_or_number item.2) mix
  /\ Forall (λ kv, finite_number kv.2) (kept mix)
  /\ (Z.of_nat (length (kept mix)) <= 1000000)%Z
  /\ (exact_total mix < F64.pow2 1022)%Q.



(** ** The order of the shares *)


(** The order of the numbers that are not negative and not [nan]. *)
Definition le_nn (x y : F64.t) : Prop :=
  match x, y with
  | F64.Fin false a, F64.Fin false b => (0 <= a)%Q /\ (a <= b)%Q
  | F64.Fin false a, F64.Inf false => (0 <= a)%Q
  | F64.Inf false, F64.Inf false => True
  | _, _ => False
  end.


(** * Properties *)


(** ** Powers of two and the binary logarithm *)

Lemma pow2_pos (k : Z) : (0 < F64.pow2 k)%Q.
Proof. apply Qpower_0_lt. reflexivity. Qed.

Lemma pow2_plus (a b : Z) : (F64.pow2 (a + b) == F64.pow2 a * F64.pow2 b)%Q.
Proof. apply Qpower_plus. discriminate. Qed.

Lemma pow2_minus (a b : Z) : (F64.pow2 (a - b) == F64.pow2 a / F64.pow2 b)%Q.
Proof. apply Qpower_minus. discriminate. Qed.

Lemma pow2_le (a b : Z) : (a <= b)%Z -> (F64.pow2 a <= F64.pow2 b)%Q.
Proof. intros H. apply Qpower_le_compat_l; [exact H | discriminate]. Qed.

Lemma pow2_lt (a b : Z) : (a < b)%Z -> (F64.pow2 a < F64.pow2 b)%Q.
Proof. intros H. apply Qpower_lt_compat_l; [exact H | reflexivity]. Qed.

Lemma pow2_lt_inv (a b : Z) : (F64.pow2 a < F64.pow2 b)%Q -> (a < b)%Z.
Proof. intros H. eapply Qpower_lt_compat_l_inv; [exact H | reflexivity]. Qed.

Lemma pow2_succ (a : Z) : (F64.pow2 (a + 1) == 2 * F64.pow2 a)%Q.
Proof. rewrite pow2_plus. change (F64.pow2 1) with 2%Q. ring. Qed.

Lemma pow2_inject (n : Z) : (0 <= n)%Z -> (inject_Z (2 ^ n) == F64.pow2 n)%Q.
Proof. intros H. apply Zpower_Qpower, H. Qed.

Lemma log2_bounds (n : Z) :
  (0 < n)%Z ->
  (F64.pow2 (Z.log2 n) <= inject_Z n)%Q
  /\ (inject_Z n < F64.pow2 (Z.log2 n + 1))%Q.
Proof.
  intros H. destruct (Z.log2_spec n H) as [L U].
  pose proof (Z.log2_nonneg n) as N.
  rewrite <- !pow2_inject by lia.
  rewrite <- Zle_Qle, <- Zlt_Qlt.
  replace (Z.log2 n + 1)%Z with (Z.succ (Z.log2 n)) by lia.
  split; assumption.
Qed.

(** [ilog2 a] is the integer [e] with [2^e <= a < 2^(e+1)]. *)
Lemma ilog2_spec (a : Q) :
  (0 < a)%Q ->
  (F64.pow2 (F64.ilog2 a) <= a)%Q /\ (a < F64.pow2 (F64.ilog2 a + 1))%Q.
Proof.
  intros Ha. destruct a as [n d].
  assert (Hn : (0 < n)%Z).
  { unfold Qlt in Ha. simpl in Ha. lia. }
  destruct (log2_bounds n Hn) as [Ln Un].
  destruct (log2_bounds (Zpos d) (Pos2Z.is_pos d)) as [Ld Ud].
  unfold F64.ilog2. cbn [Qnum Qden].
  set (i := Z.log2 n) in *. set (j := Z.log2 (Zpos d)) in *.
  assert (Hd : (0 < inject_Z (Zpos d))%Q) by reflexivity.
  assert (E : (n # d == inject_Z n / inject_Z (Zpos d))%Q) by apply Qmake_Qdiv.
  pose proof (pow2_pos i) as Pi. pose proof (pow2_pos j) as Pj.
  pose proof (pow2_pos (i - j)) as Pk.
  assert (Up : (n # d < F64.pow2 (i - j + 1))%Q).
  { rewrite E. apply Qlt_shift_div_r; [exact Hd|].
    rewrite pow2_succ, pow2_minus.
    assert (F64.pow2 i / F64.pow2 j * F64.pow2 j == F64.pow2 i)%Q
      by (field; lra).
    rewrite pow2_succ in Un.
    assert (F64.pow2 i / F64.pow2 j * F64.pow2 j
            <= F64.pow2 i / F64.pow2 j * inject_Z (Zpos d))%Q.
    { apply Qmult_le_l; [|exact Ld]. apply Qlt_shift_div_l; lra. }
    lra. }
  assert (Lo : (F64.pow2 (i - j - 1) <= n # d)%Q).
  { rewrite E. apply Qle_shift_div_l; [exact Hd|].
    replace (i - j - 1)%Z with (i - (j + 1))%Z by lia.
    rewrite pow2_minus.
    assert (F64.pow2 i / F64.pow2 (j + 1) * F64.pow2 (j + 1) == F64.pow2 i)%Q
      by (field; pose proof (pow2_pos (j + 1)); lra).
    assert (F64.pow2 i / F64.pow2 (j + 1) * inject_Z (Zpos d)
            <= F64.pow2 i / F64.pow2 (j + 1) * F64.pow2 (j + 1))%Q.
    { apply Qmult_le_l; [|lra].
      apply Qlt_shift_div_l; [apply pow2_pos | lra]. }
    lra. }
  destruct (Qle_bool (F64.pow2 (i - j)) (n # d)) eqn:C.
  - apply Qle_bool_iff in C. split; assumption.
  - replace (i - j - 1 + 1)%Z with (i - j)%Z by lia.
    split; [exact Lo|].
    destruct (Qlt_le_dec (n # d) (F64.pow2 (i - j))) as [H|H]; [exact H|].
    apply Qle_bool_iff in H. congruence.
Qed.

Lemma ilog2_unique (a : Q) (e : Z) :
  (F64.pow2 e <= a)%Q -> (a < F64.pow2 (e + 1))%Q -> F64.ilog2 a = e.
Proof.
  intros L U.
  assert (Ha : (0 < a)%Q) by (pose proof (pow2_pos e); lra).
  destruct (ilog2_spec a Ha) as [L' U'].
  assert (F64.ilog2 a < e + 1)%Z by (apply pow2_lt_inv; lra).
  assert (e < F64.ilog2 a + 1)%Z by (apply pow2_lt_inv; lra).
  lia.
Qed.

Lemma ilog2_proper (a b : Q) :
  (0 < a)%Q -> (a == b)%Q -> F64.ilog2 a = F64.ilog2 b.
Proof.
  intros Ha E. destruct (ilog2_spec a Ha) as [L U].
  symmetry. apply ilog2_unique; lra.
Qed.


(** ** Rounding to the nearest integer *)

Lemma rint_between (x : Q) :
  (Qfloor x <= rint x)%Z /\ (rint x <= Qfloor x + 1)%Z.
Proof.
  unfold rint.
  destruct (x - inject_Z (Qfloor x) ?= 1 # 2)%Q; [|lia|lia].
  destruct (Z.even (Qfloor x)); lia.
Qed.

Lemma rint_bounds (x : Q) :
  (inject_Z (rint x) - (1 # 2) <= x)%Q /\ (x <= inject_Z (rint x) + (1 # 2))%Q.
Proof.
  pose proof (Qfloor_le x) as L. pose proof (Qlt_floor x) as U.
  rewrite inject_Z_plus in U. change (inject_Z 1) with 1%Q in U.
  assert (N : (inject_Z (Qfloor x + 1) == inject_Z (Qfloor x) + 1)%Q)
    by (rewrite inject_Z_plus; reflexivity).
  unfold rint.
  destruct (x - inject_Z (Qfloor x) ?= 1 # 2)%Q eqn:C; order_of_compare C.
  - destruct (Z.even (Qfloor x)); rewrite ?N; split; lra.
  - split; lra.
  - rewrite N. split; lra.
Qed.

Lemma rint_mono (x y : Q) : (x <= y)%Q -> (rint x <= rint y)%Z.
Proof.
  intros H. pose proof (Qfloor_resp_le x y H) as F.
  destruct (Z.eq_dec (Qfloor x) (Qfloor y)) as [E|NE].
  - unfold rint. rewrite <- E.
    destruct (x - inject_Z (Qfloor x) ?= 1 # 2)%Q eqn:Cx,
             (y - inject_Z (Qfloor x) ?= 1 # 2)%Q eqn:Cy;
      order_of_compare Cx; order_of_compare Cy;
      first [ lia | exfalso; lra | destruct (Z.even (Qfloor x)); lia ].
  - pose proof (rint_between x). pose proof (rint_between y). lia.
Qed.

Lemma rint_proper (x y : Q) : (x == y)%Q -> rint x = rint y.
Proof.
  intros E.
  pose proof (rint_mono x y ltac:(lra)). pose proof (rint_mono y x ltac:(lra)).
  lia.
Qed.

Lemma rint_inject_Z (n : Z) : rint (inject_Z n) = n.
Proof.
  unfold rint. rewrite Qfloor_Z.
  destruct (inject_Z n - inject_Z n ?= 1 # 2)%Q eqn:C; order_of_compare C;
    [lra | reflexivity | lra].
Qed.

Lemma rint_nonneg (x : Q) : (0 <= x)%Q -> (0 <= rint x)%Z.
Proof.
  intros H. change 0%Z with (rint (inject_Z 0)) at 1.
  rewrite rint_inject_Z. pose proof (rint_mono 0 x H) as M.
  change 0%Q with (inject_Z 0) in M. rewrite rint_inject_Z in M. exact M.
Qed.

(** ** Rounding to binary64 *)

Lemma quantum_pos (a : Q) : (0 < F64.quantum a)%Q.
Proof. apply pow2_pos. Qed.

Lemma quantum_proper (a b : Q) :
  (0 < a)%Q -> (a == b)%Q -> F64.quantum a = F64.quantum b.
Proof.
  intros Ha E. unfold F64.quantum. rewrite (ilog2_proper a b Ha E). reflexivity.
Qed.

(** In the normal range the spacing is at most [2^-52] times the number;
    below it the spacing is [2^-1074]. *)
Lemma quantum_cases (a : Q) :
  (0 < a)%Q ->
  ((F64.quantum a <= a * F64.pow2 (-52))%Q /\ (F64.pow2 (-1022) <= a)%Q)
  \/ (F64.quantum a = F64.pow2 (-1074) /\ (a < F64.pow2 (-1022))%Q).
Proof.
  intros Ha. destruct (ilog2_spec a Ha) as [L U]. unfold F64.quantum.
  destruct (Z_le_gt_dec (-1022) (F64.ilog2 a)) as [N|S].
  - left. rewrite Z.max_l by lia. split.
    + replace (F64.ilog2 a - 52)%Z with (F64.ilog2 a + -52)%Z by lia.
      rewrite pow2_plus. apply Qmult_le_compat_r; [exact L|].
      apply Qlt_le_weak, pow2_pos.
    + pose proof (pow2_le (-1022) (F64.ilog2 a) N). lra.
  - right. rewrite Z.max_r by lia. split; [reflexivity|].
    pose proof (pow2_le (F64.ilog2 a + 1) (-1022) ltac:(lia)). lra.
Qed.

Lemma round_mag_zero (a : Q) : (a == 0)%Q -> F64.round_mag a = Some 0%Q.
Proof.
  intros E. unfold F64.round_mag.
  apply Qeq_bool_iff in E. rewrite E. reflexivity.
Qed.

Lemma round_mag_some (a r : Q) :
  (0 < a)%Q -> F64.round_mag a = Some r ->
  (r == inject_Z (rint (a / F64.quantum a)) * F64.quantum a)%Q
  /\ (r < F64.pow2 1024)%Q.
Proof.
  intros Ha H. unfold F64.round_mag in H.
  destruct (Qeq_bool a 0) eqn:Z.
  { apply Qeq_bool_iff in Z. lra. }
  destruct (Qle_bool _ _) eqn:O in H; [discriminate|].
  injection H as <-. split; [apply Qred_correct|].
  destruct (Qlt_le_dec
              (Qred (inject_Z (rint (a / F64.quantum a)) * F64.quantum a))
              (F64.pow2 1024)) as [L|L]; [exact L|].
  apply Qle_bool_iff in L. congruence.
Qed.

Lemma round_mag_proper (a b : Q) :
  (0 <= a)%Q -> (a == b)%Q -> F64.round_mag a = F64.round_mag b.
Proof.
  intros Ha E. unfold F64.round_mag.
  destruct (Qeq_bool a 0) eqn:Za, (Qeq_bool b 0) eqn:Zb; try reflexivity.
  - apply Qeq_bool_iff in Za. apply Qeq_bool_neq in Zb. lra.
  - apply Qeq_bool_iff in Zb. apply Qeq_bool_neq in Za. lra.
  - apply Qeq_bool_neq in Za.
    rewrite <- (quantum_proper a b ltac:(lra) E).
    rewrite (rint_proper (a / F64.quantum a) (b / F64.quantum a))
      by (apply Qdiv_comp; [exact E | reflexivity]).
    reflexivity.
Qed.

(** The rounding error is at most half the spacing. *)
Lemma round_mag_error (a r : Q) :
  (0 < a)%Q -> F64.round_mag a = Some r ->
  (Qabs (r - a) <= F64.quantum a / 2)%Q.
Proof.
  intros Ha H. destruct (round_mag_some a r Ha H) as [E _].
  pose proof (quantum_pos a) as Pq.
  destruct (rint_bounds (a / F64.quantum a)) as [L U].
  set (q := F64.quantum a) in *. set (m := inject_Z (rint (a / q))) in *.
  assert (A : (a == a / q * q)%Q) by (field; lra).
  assert (L' : ((m - (1 # 2)) * q <= a / q * q)%Q)
    by (apply Qmult_le_compat_r; lra).
  assert (U' : (a / q * q <= (m + (1 # 2)) * q)%Q)
    by (apply Qmult_le_compat_r; lra).
  apply Qabs_Qle_condition. rewrite E.
  assert ((m - (1 # 2)) * q == m * q - q / 2)%Q by field.
  assert ((m + (1 # 2)) * q == m * q + q / 2)%Q by field.
  split; lra.
Qed.

Lemma round_mag_nonneg (a r : Q) :
  (0 <= a)%Q -> F64.round_mag a = Some r -> (0 <= r)%Q.
Proof.
  intros Ha H. destruct (Qeq_dec a 0) as [Z|N].
  - rewrite (round_mag_zero a Z) in H. injection H as <-. lra.
  - destruct (round_mag_some a r ltac:(lra) H) as [E _]. rewrite E.
    pose proof (quantum_pos a).
    apply Qmult_le_0_compat; [|lra].
    change 0%Q with (inject_Z 0). rewrite <- Zle_Qle. apply rint_nonneg.
    apply Qle_shift_div_l; lra.
Qed.

(** Relative and absolute form of the error bound. *)
Lemma round_mag_error_bound (a r : Q) :
  (0 <= a)%Q -> F64.round_mag a = Some r ->
  (Qabs (r - a) <= a * F64.pow2 (-53) + F64.pow2 (-1075))%Q.
Proof.
  intros Ha H. destruct (Qeq_dec a 0) as [Z|N].
  - rewrite (round_mag_zero a Z) in H. injection H as <-.
    pose proof (pow2_pos (-1075)). pose proof (pow2_pos (-53)).
    apply Qabs_Qle_condition. rewrite Z. split; lra.
  - assert (Pa : (0 < a)%Q) by lra.
    pose proof (round_mag_error a r Pa H) as E.
    pose proof (pow2_pos (-1075)) as P1. pose proof (pow2_pos (-53)) as P2.
    assert (H52 : (F64.pow2 (-52) == 2 * F64.pow2 (-53))%Q) by reflexivity.
    assert (H74 : (F64.pow2 (-1074) == 2 * F64.pow2 (-1075))%Q) by reflexivity.
    assert (0 <= a * F64.pow2 (-53))%Q by (apply Qmult_le_0_compat; lra).
    destruct (quantum_cases a Pa) as [[Q _] | [Q _]].
    + rewrite H52 in Q.
      assert (a * (2 * F64.pow2 (-53)) == 2 * (a * F64.pow2 (-53)))%Q by ring.
      assert (F64.quantum a / 2 <= a * F64.pow2 (-53))%Q
        by (apply Qle_shift_div_r; lra).
      lra.
    + rewrite Q in E.
      assert (F64.pow2 (-1074) / 2 == F64.pow2 (-1075))%Q by reflexivity.
      lra.
Qed.

(** A magnitude below [2^1023] never overflows. *)
Lemma round_mag_finite (a : Q) :
  (0 <= a)%Q -> (a < F64.pow2 1023)%Q -> exists r, F64.round_mag a = Some r.
Proof.
  intros Ha Hb. destruct (Qeq_dec a 0) as [Z|N].
  { exists 0%Q. apply round_mag_zero, Z. }
  assert (Pa : (0 < a)%Q) by lra.
  unfold F64.round_mag.
  destruct (Qeq_bool a 0) eqn:Zb; [apply Qeq_bool_iff in Zb; lra|].
  destruct (Qle_bool _ _) eqn:O; [|eexists; reflexivity].
  exfalso. apply Qle_bool_iff in O. rewrite Qred_correct in O.
  pose proof (quantum_pos a) as Pq.
  destruct (rint_bounds (a / F64.quantum a)) as [L _].
  set (q := F64.quantum a) in *. set (m := inject_Z (rint (a / q))) in *.
  assert (A : (a == a / q * q)%Q) by (field; lra).
  assert (L' : ((m - (1 # 2)) * q <= a / q * q)%Q)
    by (apply Qmult_le_compat_r; lra).
  assert (M : ((m - (1 # 2)) * q == m * q - q / 2)%Q) by field.
  assert (T : (F64.pow2 1024 == 2 * F64.pow2 1023)%Q) by reflexivity.
  assert (Q1 : (q <= F64.pow2 1023)%Q).
  { destruct (quantum_cases a Pa) as [[Q _] | [Q _]]; fold q in Q.
    - assert (a * F64.pow2 (-52) <= a * 1)%Q.
      { apply Qmult_le_l; [exact Pa|].
        change 1%Q with (F64.pow2 0). apply pow2_le. lia. }
      lra.
    - rewrite Q. apply pow2_le. lia. }
  lra.
Qed.

Lemma round_mag_grid (a r : Q) :
  (0 <= a)%Q -> F64.round_mag a = Some r -> on_grid r.
Proof.
  intros Ha H. destruct (Qeq_dec a 0) as [Z|N].
  { rewrite (round_mag_zero a Z) in H. injection H as <-. exists 0%Z. ring. }
  destruct (round_mag_some a r ltac:(lra) H) as [E _].
  unfold F64.quantum in E.
  set (ex := Z.max (F64.ilog2 a - 52) (-1074)) in *.
  exists (rint (a / F64.pow2 ex) * 2 ^ (ex + 1074))%Z.
  rewrite E, inject_Z_mult, pow2_inject by lia.
  replace ex with ((ex + 1074) + -1074)%Z at 2 by lia.
  rewrite pow2_plus. ring.
Qed.

Lemma on_grid_plus (a b : Q) : on_grid a -> on_grid b -> on_grid (a + b).
Proof.
  intros [k Ha] [l Hb]. exists (k + l)%Z.
  rewrite Ha, Hb, inject_Z_plus. ring.
Qed.

Lemma on_grid_int (n : Z) : on_grid (inject_Z n).
Proof.
  exists (n * 2 ^ 1074)%Z. rewrite inject_Z_mult, pow2_inject by lia.
  assert (F64.pow2 1074 * F64.pow2 (-1074) == 1)%Q by reflexivity.
  rewrite <- Qmult_assoc, H. ring.
Qed.

(** Below the normal range a multiple of [2^-1074] is not changed. *)
Lemma round_mag_exact_subnormal (a r : Q) :
  on_grid a -> (0 < a)%Q -> (a < F64.pow2 (-1022))%Q ->
  F64.round_mag a = Some r -> (r == a)%Q.
Proof.
  intros [k Hk] Pa Hs H.
  destruct (round_mag_some a r Pa H) as [E _].
  destruct (quantum_cases a Pa) as [[_ N] | [Q _]]; [lra|].
  rewrite Q in E. rewrite E.
  assert (D : (a / F64.pow2 (-1074) == inject_Z k)%Q).
  { rewrite Hk. field. pose proof (pow2_pos (-1074)). lra. }
  rewrite (rint_proper _ _ D), rint_inject_Z. symmetry. exact Hk.
Qed.

(** On a multiple of [2^-1074] (a sum of binary64 numbers, an [int]) the
    rounding error is purely relative. *)
Lemma round_mag_error_grid (a r : Q) :
  on_grid a -> (0 <= a)%Q -> F64.round_mag a = Some r ->
  (Qabs (r - a) <= a * F64.pow2 (-53))%Q.
Proof.
  intros G Ha H. destruct (Qeq_dec a 0) as [Z|N].
  { rewrite (round_mag_zero a Z) in H. injection H as <-.
    apply Qabs_Qle_condition. rewrite Z. split; lra. }
  assert (Pa : (0 < a)%Q) by lra.
  pose proof (pow2_pos (-53)) as P2.
  assert (0 <= a * F64.pow2 (-53))%Q by (apply Qmult_le_0_compat; lra).
  destruct (quantum_cases a Pa) as [[Q _] | [_ S]].
  - pose proof (round_mag_error a r Pa H) as E.
    assert (H52 : (F64.pow2 (-52) == 2 * F64.pow2 (-53))%Q) by reflexivity.
    rewrite H52 in Q.
    assert (a * (2 * F64.pow2 (-53)) == 2 * (a * F64.pow2 (-53)))%Q by ring.
    assert (F64.quantum a / 2 <= a * F64.pow2 (-53))%Q
      by (apply Qle_shift_div_r; lra).
    lra.
  - pose proof (round_mag_exact_subnormal a r G Pa S H) as E.
    apply Qabs_Qle_condition. rewrite E. split; lra.
Qed.

(** ** The operations against the floats of the machine *)

Example literals_of_the_table :
  map F64.of_Q
      [36.2%Q; 31.1%Q; 12.7%Q; 8.9%Q; 6.8%Q; 2.1%Q; 1.2%Q; 1.0%Q]
  = map of_prim
        [36.2%float; 31.1%float; 12.7%float; 8.9%float; 6.8%float;
         2.1%float; 1.2%float; 1.0%float].
Proof. vm_compute. reflexivity. Qed.

Example sum_of_the_table :
  F64.add
    (F64.add
       (F64.add
          (F64.add
             (F64.add
                (F64.add (F64.add (F64.of_Q 36.2) (F64.of_Q 31.1))
                         (F64.of_Q 12.7))
                (F64.of_Q 8.9))
             (F64.of_Q 6.8))
          (F64.of_Q 2.1))
       (F64.of_Q 1.2))
    (F64.of_Q 1.0)
  = of_prim (36.2 + 31.1 + 12.7 + 8.9 + 6.8 + 2.1 + 1.2 + 1.0)%float.
Proof. vm_compute. reflexivity. Qed.

Example estimate_of_hydro :
  F64.mul (F64.div (F64.of_Q 36.2) (F64.of_Q 100)) (F64.of_Q 2800)
  = of_prim (36.2 / 100 * 2800)%float.
Proof. vm_compute. reflexivity. Qed.

Example percentage_of_800_in_1500 :
  F64.mul (F64.div (F64.of_Q 800) (F64.of_Q 1500)) (F64.of_Q 100)
  = of_prim (800 / 1500 * 100)%float.
Proof. vm_compute. reflexivity. Qed.

Example addition_overflows :
  F64.add (F64.of_Q 1e308) (F64.of_Q 1e308) = of_prim (1e308 + 1e308)%float.
Proof. vm_compute. reflexivity. Qed.

Example product_underflows :
  F64.mul (F64.of_Q 1e-200) (F64.of_Q (-1e-200))
  = of_prim (1e-200 * -1e-200)%float.
Proof. vm_compute. reflexivity. Qed.

Example subnormal_quotients :
  [ F64.div (F64.of_Q 5e-324) (F64.of_Q 2);
    F64.div (F64.of_Q 1.5e-323) (F64.of_Q 2);
    F64.div (F64.of_Q (-1e-320)) (F64.of_Q 7) ]
  = map of_prim
        [(5e-324 / 2)%float; (1.5e-323 / 2)%float; (-1e-320 / 7)%float].
Proof. vm_compute. reflexivity. Qed.

Example cancellation_gives_zero :
  F64.add (F64.of_Q 0.1) (F64.of_Q (-0.1)) = of_prim (0.1 + -0.1)%float.
Proof. vm_compute. reflexivity. Qed.

(** ** The monad and the loops *)

Lemma bind_return {A B} (m : Py.result A) (k : A -> Py.result B) (b : B) :
  (m ≫= k) = Py.Return b -> exists a, m = Py.Return a /\ k a = Py.Return b.
Proof.
  destruct m as [a|e]; simpl; [|discriminate]. intros H. exists a. auto.
Qed.

Lemma for_each_Forall2 {A B} (f : A -> Py.result B) xs ys :
  Py.for_each f xs = Py.Return ys -> Forall2 (λ x y, f x = Py.Return y) xs ys.
Proof.
  revert ys. induction xs as [|x xs IH]; intros ys H; simpl in H.
  - injection H as <-. constructor.
  - destruct (f x) as [y|e] eqn:Fx; [|discriminate]. simpl in H.
    destruct (Py.for_each f xs) as [ys'|e] eqn:Fxs; [|discriminate].
    simpl in H. injection H as <-. constructor; [exact Fx | apply IH; reflexivity].
Qed.

Lemma for_each_returns {A B} (f : A -> Py.result B) xs :
  Forall (λ x, exists y, f x = Py.Return y) xs ->
  exists ys, Py.for_each f xs = Py.Return ys.
Proof.
  induction 1 as [|x xs [y Hy] _ [ys IH]]; simpl.
  - eexists; reflexivity.
  - rewrite Hy, IH. eexists; reflexivity.
Qed.

Lemma for_state_app {S A} (f : S -> A -> Py.result S) xs ys s :
  Py.for_state f (xs ++ ys) s = Py.for_state f xs s ≫= Py.for_state f ys.
Proof.
  revert s. induction xs as [|x xs IH]; intros s; simpl; [reflexivity|].
  destruct (f s x) as [s'|e]; simpl; [apply IH | reflexivity].
Qed.

(** One iteration of the first loop, by the kind of the entry. *)
Lemma collect_none state raw : collect state (raw, Py.None_) = Py.Return state.
Proof. destruct state. reflexivity. Qed.

Lemma collect_number state raw a :
  collect state (raw, Py.Num a)
  = if Py.gt a (int_lit 0)
    then total ← Py.add state.2 a;
         mret (state.1 ++ [fresh_record (raw, a)], total)
    else Py.Return state.
Proof.
  destruct state as [records total]. unfold collect.
  cbn [Py.gt_zero]. change (Py.NInt 0) with (int_lit 0).
  destruct (Py.gt a (int_lit 0)); reflexivity.
Qed.

Lemma collect_other state raw entry :
  ~ none_or_number entry ->
  exists msg, collect state (raw, entry) = Py.Raise (Py.Raised Py.TypeError msg).
Proof.
  intros H. destruct state as [records total].
  destruct entry as [|a|s|l|d]; simpl;
    try (eexists; reflexivity); exfalso; apply H.
  - left; reflexivity.
  - right; eexists; reflexivity.
Qed.

Lemma none_or_number_dec entry : {none_or_number entry} + {~ none_or_number entry}.
Proof.
  destruct entry as [|a|s|l|d];
    try (right; intros [H|[a' H]]; discriminate H).
  - left. left. reflexivity.
  - left. right. eexists. reflexivity.
Defined.

(** The first loop: what it returns when it returns. *)
Lemma kept_nil : kept [] = [].
Proof. reflexivity. Qed.

Lemma kept_cons_none raw mix : kept ((raw, Py.None_) :: mix) = kept mix.
Proof. reflexivity. Qed.

Lemma kept_cons_number raw a mix :
  kept ((raw, Py.Num a) :: mix)
  = if Py.gt a (int_lit 0) then (raw, a) :: kept mix else kept mix.
Proof.
  unfold kept. simpl. destruct (Py.gt a (int_lit 0)); reflexivity.
Qed.

Lemma kept_cons_other raw entry mix :
  ~ strictly_positive entry -> kept ((raw, entry) :: mix) = kept mix.
Proof.
  intros P. destruct entry as [|a| | |]; try reflexivity.
  rewrite kept_cons_number. destruct (Py.gt a (int_lit 0)) eqn:G; [|reflexivity].
  exfalso. apply P. exact G.
Qed.

(** The first loop: what it returns when it returns. *)
Lemma collect_loop mix state state' :
  Py.for_state collect mix state = Py.Return state' ->
  Forall (λ item, none_or_number item.2) mix
  /\ state'.1 = state.1 ++ map fresh_record (kept mix)
  /\ Py.for_state Py.add (map snd (kept mix)) state.2 = Py.Return state'.2.
Proof.
  revert state. induction mix as [|[raw entry] mix IH]; intros state H.
  - simpl in H. injection H as <-. rewrite kept_nil. simpl.
    rewrite app_nil_r. repeat split. constructor.
  - cbn [Py.for_state] in H.
    destruct (none_or_number_dec entry) as [[->|[a ->]]|N].
    + rewrite collect_none in H. simpl in H.
      destruct (IH _ H) as (T & R & S). rewrite kept_cons_none.
      split; [constructor; [left; reflexivity | exact T]|].
      split; assumption.
    + rewrite collect_number in H. rewrite kept_cons_number.
      destruct (Py.gt a (int_lit 0)) eqn:G.
      * destruct (Py.add state.2 a) as [total|e] eqn:A; [|discriminate].
        simpl in H. destruct (IH _ H) as (T & R & S). cbn [fst snd] in R, S.
        split; [constructor; [right; eexists; reflexivity | exact T]|].
        split.
        -- rewrite R, <- app_assoc. reflexivity.
        -- cbn [map snd Py.for_state]. rewrite A. exact S.
      * simpl in H. destruct (IH _ H) as (T & R & S).
        split; [constructor; [right; eexists; reflexivity | exact T]|].
        split; assumption.
    + destruct (collect_other state raw entry N) as [msg E].
      rewrite E in H. discriminate.
Qed.

(** The first loop on entries that are [None] or numbers: it fails only
    where an addition of the total fails. *)
Lemma collect_loop_typed mix state :
  Forall (λ item, none_or_number item.2) mix ->
  Py.for_state collect mix state
  = (total ← Py.for_state Py.add (map snd (kept mix)) state.2;
     mret (state.1 ++ map fresh_record (kept mix), total)).
Proof.
  intros T. revert state.
  induction T as [|[raw entry] mix [E|[a E]] _ IH]; intros state;
    try (cbn [snd] in E; subst entry).
  - simpl. rewrite app_nil_r. destruct state; reflexivity.
  - cbn [Py.for_state]. rewrite collect_none, kept_cons_none. simpl. apply IH.
  - cbn [Py.for_state]. rewrite collect_number, kept_cons_number.
    destruct (Py.gt a (int_lit 0)) eqn:G.
    + cbn [map snd Py.for_state].
      destruct (Py.add state.2 a) as [total|e]; [|reflexivity].
      simpl. rewrite IH. cbn [fst snd]. rewrite <- app_assoc. reflexivity.
    + simpl. apply IH.
Qed.

Lemma kept_filter (mix : list (string * Py.value)) :
  Forall2 (λ item kv, item = (kv.1, Py.Num kv.2))
          (filter (λ item, strictly_positive item.2) mix) (kept mix).
Proof.
  induction mix as [|[raw entry] mix IH]; [constructor|].
  rewrite filter_cons. cbn [snd].
  destruct (decide (strictly_positive entry)) as [P|P].
  - destruct entry as [|a| | |]; try contradiction.
    rewrite kept_cons_number. simpl in P. rewrite P.
    constructor; [reflexivity | exact IH].
  - rewrite kept_cons_other by exact P. exact IH.
Qed.

Lemma kept_positive (mix : list (string * Py.value)) :
  Forall (λ kv, Py.gt kv.2 (int_lit 0) = true) (kept mix).
Proof.
  induction mix as [|[raw entry] mix IH]; [constructor|].
  destruct entry as [|a| | |]; try exact IH.
  rewrite kept_cons_number.
  destruct (Py.gt a (int_lit 0)) eqn:G; [|exact IH].
  constructor; [exact G | exact IH].
Qed.

Lemma kept_app (xs ys : list (string * Py.value)) :
  kept (xs ++ ys) = kept xs ++ kept ys.
Proof. unfold kept. apply omap_app. Qed.

(** ** The two branches of [process_kenya_data] *)

Lemma fallback_run_eq now :
  fallback_run now
  = Py.Return (fallback_records, Py.Str now, fallback_total, "Estimated Data").
Proof. vm_compute. reflexivity. Qed.

Lemma process_fallback api_data use_live now :
  live_condition api_data use_live = Py.Return false ->
  process_kenya_data api_data use_live now = fallback_run now.
Proof. intros H. unfold process_kenya_data. rewrite H. reflexivity. Qed.

Lemma live_condition_dict entries use_live :
  live_condition (Py.Dict entries) use_live
  = Py.Return (use_live && bool_decide (is_Some (Py.lookup breakdown_key entries))).
Proof.
  destruct use_live; [|reflexivity]. destruct entries as [|[k v] entries].
  - reflexivity.
  - reflexivity.
Qed.

Lemma process_live entries mix now :
  Py.lookup breakdown_key entries = Some (Py.Dict mix) ->
  process_kenya_data (Py.Dict entries) true now
  = live_run mix (default (Py.Str now) (Py.lookup "datetime" entries)).
Proof.
  intros L. unfold process_kenya_data. rewrite live_condition_dict.
  fold breakdown_key. cbn [andb]. rewrite L.
  rewrite bool_decide_eq_true_2 by (eexists; reflexivity).
  cbn [mbind result_bind Py.bind Py.subscript]. rewrite L.
  reflexivity.
Qed.

(** Every returned result comes from one of the two branches. *)
Lemma process_inversion api_data use_live now result :
  process_kenya_data api_data use_live now = Py.Return result ->
  (live_condition api_data use_live = Py.Return false
   /\ fallback_run now = Py.Return result)
  \/ (exists entries mix,
        api_data = Py.Dict entries /\ use_live = true
        /\ Py.lookup breakdown_key entries = Some (Py.Dict mix)
        /\ live_run mix (default (Py.Str now) (Py.lookup "datetime" entries))
           = Py.Return result).
Proof.
  intros H.
  destruct (live_condition api_data use_live) as [[|]|e] eqn:C.
  - right. destruct use_live; [|discriminate C].
    destruct api_data as [|a|s|items|entries].
    + discriminate C.
    + unfold live_condition in C.
      destruct (Py.truthy (Py.Num a)); cbn in C; discriminate C.
    + unfold process_kenya_data in H. rewrite C in H. discriminate H.
    + unfold process_kenya_data in H. rewrite C in H. discriminate H.
    + rewrite live_condition_dict in C. injection C as C.
      apply bool_decide_eq_true_1 in C. destruct C as [mixv L].
      destruct mixv as [|a|s|items|mix];
        try (unfold process_kenya_data in H; rewrite live_condition_dict in H;
             fold breakdown_key in H; cbn [andb] in H; rewrite L in H;
             rewrite bool_decide_eq_true_2 in H by (eexists; reflexivity);
             cbn [mbind result_bind Py.bind Py.subscript] in H;
             rewrite L in H; discriminate H).
      exists entries, mix. repeat split; [exact L|].
      rewrite <- process_live by exact L. exact H.
  - left. split; [reflexivity|]. rewrite <- H. symmetry.
    apply process_fallback. exact C.
  - unfold process_kenya_data in H. rewrite C in H. discriminate H.
Qed.

Lemma set_percentage_fields total record record' :
  set_percentage total record = Py.Return record' ->
  source record' = source record /\ value record' = value record.
Proof.
  unfold set_percentage. intros H. apply bind_return in H.
  destruct H as (p & _ & H). injection H as <-. split; reflexivity.
Qed.


(** What the live branch returns, when it returns. *)
Lemma live_run_returns mix timestamp result :
  live_run mix timestamp = Py.Return result ->
  exists records total,
    result = (records, timestamp, total, "Live Data")
    /\ Forall (λ item, none_or_number item.2) mix
    /\ Py.sum (map snd (kept mix)) = Py.Return total
    /\ Forall2 (λ kv r, set_percentage total (fresh_record kv) = Py.Return r)
               (kept mix) records.
Proof.
  unfold live_run. intros H. apply bind_return in H.
  destruct H as ([records0 total] & L & H).
  apply bind_return in H. destruct H as (records & P & H).
  injection H as <-. apply collect_loop in L. destruct L as (T & R & S).
  cbn [fst snd] in R, S. simpl in R. subst records0.
  exists records, total. repeat split; try assumption.
  apply for_each_Forall2 in P. apply Forall2_fmap_l in P. exact P.
Qed.

(** * The properties of the specification *)

(** ** The empty breakdown *)




(** ** Which entries become records, and under which name *)

Lemma live_records_of entries mix now result :
  Py.lookup breakdown_key entries = Some (Py.Dict mix) ->
  process_kenya_data (Py.Dict entries) true now = Py.Return result ->
  exists total,
    Py.sum (map snd (kept mix)) = Py.Return total
    /\ total_of result = total
    /\ timestamp_of result = default (Py.Str now) (Py.lookup "datetime" entries)
    /\ data_source_of result = "Live Data"
    /\ Forall (λ item, none_or_number item.2) mix
    /\ Forall2 (λ kv r, set_percentage total (fresh_record kv) = Py.Return r)
               (kept mix) (records_of result).
Proof.
  intros L H. rewrite (process_live _ _ _ L) in H.
  apply live_run_returns in H.
  destruct H as (records & total & -> & T & S & F).
  exists total. repeat split; assumption.
Qed.

Lemma live_run_drop before item after timestamp :
  item.2 = Py.None_ \/ (exists a, item.2 = Py.Num a /\ Py.gt a (int_lit 0) = false) ->
  live_run (before ++ item :: after) timestamp
  = live_run (before ++ after) timestamp.
Proof.
  intros N. unfold live_run. f_equal.
  rewrite !for_state_app.
  destruct (Py.for_state collect before ([], int_lit 0)) as [state|e];
    [|reflexivity].
  simpl. destruct item as [raw entry]. cbn [snd] in N.
  destruct N as [->|(a & -> & G)].
  - rewrite collect_none. reflexivity.
  - rewrite collect_number, G. reflexivity.
Qed.

Lemma Forall2_compose {A B C} (P : A -> B -> Prop) (Q : B -> C -> Prop)
    (R : A -> C -> Prop) xs ys zs :
  (forall x y z, P x y -> Q y z -> R x z) ->
  Forall2 P xs ys -> Forall2 Q ys zs -> Forall2 R xs zs.
Proof.
  intros H F. revert zs. induction F as [|x y xs ys Pxy _ IH]; intros zs G.
  - inversion G. constructor.
  - inversion G as [|y' z ys' zs' Qyz G']; subst.
    constructor; [eapply H; eassumption | apply IH; exact G'].
Qed.

Lemma Forall2_elem_r {A B} (R : A -> B -> Prop) xs ys y :
  Forall2 R xs ys -> y ∈ ys -> exists x, x ∈ xs /\ R x y.
Proof.
  induction 1 as [|x y' xs ys Rxy _ IH]; intros E.
  - inversion E.
  - apply elem_of_cons in E. destruct E as [->|E].
    + exists x. split; [left | exact Rxy].
    + destruct (IH E) as (x' & I & Rx). exists x'. split; [right; exact I | exact Rx].
Qed.

(** C5.  On the live branch the records of a returned result are, in
    order, the entries of the breakdown that are numbers greater than
    [0], each with the value of its entry.  So every record's value is a
    strictly positive entry of the breakdown, and an entry that is
    [None], or a number that is not greater than [0], produces nothing:
    the result is the same with that entry removed. *)
Theorem live_records_are_positive_entries
    (entries mix : list (string * Py.value)) (now : string)
    (result : SnapshotResult) :
  Py.lookup breakdown_key entries = Some (Py.Dict mix) ->
  process_kenya_data (Py.Dict entries) true now = Py.Return result ->
  Forall2 (λ item record, item.2 = Py.Num (value record))
          (filter (λ item, strictly_positive item.2) mix)
          (records_of result)
  /\ (forall record,
        record ∈ records_of result ->
        Py.gt (value record) (int_lit 0) = true
        /\ exists raw, (raw, Py.Num (value record)) ∈ mix)
  /\ (forall before item after entries',
        mix = before ++ item :: after ->
        item.2 = Py.None_
        \/ (exists a, item.2 = Py.Num a /\ Py.gt a (int_lit 0) = false) ->
        Py.lookup breakdown_key entries' = Some (Py.Dict (before ++ after)) ->
        Py.lookup "datetime" entries' = Py.lookup "datetime" entries ->
        process_kenya_data (Py.Dict entries') true now = Py.Return result).
Proof.
  intros L H.
  destruct (live_records_of _ _ _ _ L H) as (total & _ & _ & _ & _ & _ & F).
  assert (A : Forall2 (λ item record, item.2 = Py.Num (value record))
                      (filter (λ item, strictly_positive item.2) mix)
                      (records_of result)).
  { eapply Forall2_compose; [|apply kept_filter|exact F].
    intros item kv r -> P. apply set_percentage_fields in P.
    destruct P as [_ ->]. reflexivity. }
  split; [exact A|]. split.
  - intros record R.
    destruct (Forall2_elem_r _ _ _ _ A R) as ([raw entry] & I & E).
    apply list_elem_of_filter in I. destruct I as [P I].
    cbn [snd] in E, P. subst entry. split; [exact P|].
    exists raw. exact I.
  - intros before item after entries' -> N L' D.
    rewrite (process_live _ _ _ L'), D, <- (live_run_drop before item after) by exact N.
    rewrite <- (process_live _ _ _ L). exact H.
Qed.

(** Scenario A is a live call; its zero and its negative entry leave no
    record. *)
Lemma live_records_are_positive_entries_witness :
  process_kenya_data scenario_a true "12:00" = Py.Return scenario_a_snapshot
  /\ Forall2 (λ item record, item.2 = Py.Num (value record))
             [ ("hydro", Py.Num (int_lit 800));
               ("geothermal", Py.Num (int_lit 700)) ]
             (records_of scenario_a_snapshot).
Proof.
  split; [reflexivity|].
  exact (proj1 (live_records_are_positive_entries
                  [ (breakdown_key, Py.Dict scenario_a_mix);
                    ("datetime", Py.Str "2024-05-01T12:00:00Z") ]
                  scenario_a_mix "12:00" scenario_a_snapshot
                  eq_refl eq_refl)).
Defined.



(** ** Scenario A *)

(** C7.  Scenario A: two records, Hydro (800) and Geothermal (700), total
    1500, label "Live Data" and the timestamp of the payload, whatever
    the clock.  The percentages are the binary64 numbers
    53.333333333333336 and 46.666666666666664: they are within one unit
    in the last place of 160/3 and 140/3, and round to 53.33 and 46.67. *)
Theorem scenario_a_result (now : string) :
  process_kenya_data scenario_a true now = Py.Return scenario_a_snapshot
  /\ exists p_hydro p_geothermal : Q,
      records_of scenario_a_snapshot
      = [ mkRecord "Hydro" (int_lit 800) (Py.NFloat (F64.Fin false p_hydro));
          mkRecord "Geothermal" (int_lit 700)
                   (Py.NFloat (F64.Fin false p_geothermal)) ]
      /\ (Qabs (p_hydro - (160 # 3)) <= F64.pow2 (-47))%Q
      /\ (Qabs (p_hydro - 53.33) < 0.005)%Q
      /\ rint (p_hydro * 100) = 5333%Z
      /\ (Qabs (p_geothermal - (140 # 3)) <= F64.pow2 (-47))%Q
      /\ (Qabs (p_geothermal - 46.67) < 0.005)%Q
      /\ rint (p_geothermal * 100) = 4667%Z.
Proof.
  split; [vm_compute; reflexivity|].
  eexists _, _. split; [vm_compute; reflexivity|].
  repeat split; vm_compute; congruence.
Qed.

(** ** Data acquisition *)

(** C8, as stated, fails: on a response whose status is not 200 the
    function returns the bare failure pair [(None, False)] and sends no
    warning, so no cause string reaches the caller or the page. *)
Lemma failure_without_cause :
  get_kenya_power_data
    (Py.Return (mkResponse 503
                  (Py.Raise (Py.Raised Py.Exception "Service Unavailable"))))
  = ((Py.None_, false), []).
Proof. reflexivity. Qed.

(** C8, amended.  The function returns the success pair [(data, True)]
    exactly when the request returned, the status is 200, the body
    decoded and the test ['powerProductionBreakdown' in data] is true.
    Every other outcome is the failure pair [(None, False)], which
    carries no cause: when the request, the decoding or the membership
    test raised, one warning "Live data unavailable: <text of the
    exception>" is sent to the page; when the status is not 200 or the
    test is false, nothing is sent.  For a body that is a mapping the
    test is whether it has the key; for a body that is [null] or a
    number it raises [TypeError].  No outcome raises past the
    function. *)
Theorem get_kenya_power_data_outcomes :
  let warning e := "Live data unavailable: " +:+ Py.str e in
  (forall requests_get,
      (get_kenya_power_data requests_get).1.2 = true
      <-> exists body data,
            requests_get = Py.Return (mkResponse 200 body)
            /\ body = Py.Return data
            /\ Py.contains breakdown_key data = Py.Return true)
  /\ (forall data,
        Py.contains breakdown_key data = Py.Return true ->
        get_kenya_power_data (Py.Return (mkResponse 200 (Py.Return data)))
        = ((data, true), []))
  /\ (forall data,
        Py.contains breakdown_key data = Py.Return false ->
        get_kenya_power_data (Py.Return (mkResponse 200 (Py.Return data)))
        = ((Py.None_, false), []))
  /\ (forall data e,
        Py.contains breakdown_key data = Py.Raise e ->
        get_kenya_power_data (Py.Return (mkResponse 200 (Py.Return data)))
        = ((Py.None_, false), [warning e]))
  /\ (forall status body,
        status <> 200%Z ->
        get_kenya_power_data (Py.Return (mkResponse status body))
        = ((Py.None_, false), []))
  /\ (forall e,
        get_kenya_power_data (Py.Return (mkResponse 200 (Py.Raise e)))
        = ((Py.None_, false), [warning e]))
  /\ (forall e,
        get_kenya_power_data (Py.Raise e) = ((Py.None_, false), [warning e]))
  /\ (forall entries,
        Py.contains breakdown_key (Py.Dict entries) = Py.Return true
        <-> is_Some (Py.lookup breakdown_key entries))
  /\ (forall data,
        data = Py.None_ \/ (exists a, data = Py.Num a) ->
        exists msg,
          Py.contains breakdown_key data
          = Py.Raise (Py.Raised Py.TypeError msg)).
Proof.
  cbv zeta.
  assert (Test : forall data,
             get_kenya_power_data (Py.Return (mkResponse 200 (Py.Return data)))
             = match Py.contains breakdown_key data with
               | Py.Return true => ((data, true), [])
               | Py.Return false => ((Py.None_, false), [])
               | Py.Raise e =>
                   ((Py.None_, false), ["Live data unavailable: " +:+ Py.str e])
               end).
  { intros data. unfold get_kenya_power_data, get_kenya_power_data_try.
    cbn [mbind result_bind Py.bind status_code json Z.eqb Pos.eqb].
    fold breakdown_key.
    destruct (Py.contains breakdown_key data) as [[|]|e]; reflexivity. }
  assert (Status : forall status body,
             status <> 200%Z ->
             get_kenya_power_data (Py.Return (mkResponse status body))
             = ((Py.None_, false), [])).
  { intros status body NE. unfold get_kenya_power_data. simpl.
    apply Z.eqb_neq in NE. rewrite NE. reflexivity. }
  split; [|split; [|split; [|split; [|split; [|split; [|split; [|split]]]]]]].
  - intros requests_get. split.
    + destruct requests_get as [[status body]|e]; [|discriminate].
      destruct (Z.eq_dec status 200%Z) as [->|NE];
        [|rewrite Status by exact NE; discriminate].
      destruct body as [data|e]; [|discriminate].
      rewrite Test.
      destruct (Py.contains breakdown_key data) as [[|]|e] eqn:C;
        try discriminate.
      intros _. exists (Py.Return data), data. repeat split. exact C.
    + intros (body & data & -> & -> & C). rewrite Test, C. reflexivity.
  - intros data C. rewrite Test, C. reflexivity.
  - intros data C. rewrite Test, C. reflexivity.
  - intros data e C. rewrite Test, C. reflexivity.
  - exact Status.
  - reflexivity.
  - reflexivity.
  - intros entries. split.
    + intros H. injection H as H. apply bool_decide_eq_true_1 in H. exact H.
    + intros H. simpl. rewrite bool_decide_eq_true_2 by exact H. reflexivity.
  - intros data [->|[a ->]]; eexists; reflexivity.
Qed.

(** A mapping with the key, a mapping without it, and a [null] body. *)
Lemma get_kenya_power_data_outcomes_witness :
  let ok body := Py.Return (mkResponse 200 (Py.Return body)) in
  get_kenya_power_data (ok scenario_a) = ((scenario_a, true), [])
  /\ get_kenya_power_data (ok (Py.Dict [("zone", Py.Str "KE")]))
     = ((Py.None_, false), [])
  /\ get_kenya_power_data (ok Py.None_)
     = ((Py.None_, false),
        ["Live data unavailable: argument of type 'NoneType' is not iterable"])
  /\ get_kenya_power_data (Py.Return (mkResponse 404 (Py.Return scenario_a)))
     = ((Py.None_, false), []).
Proof.
  cbv zeta.
  pose proof get_kenya_power_data_outcomes as H. cbv zeta in H.
  destruct H as (_ & A & B & C & D & _).
  split; [exact (A scenario_a eq_refl)|].
  split; [exact (B (Py.Dict [("zone", Py.Str "KE")]) eq_refl)|].
  split; [exact (C Py.None_ _ eq_refl)|].
  apply D. discriminate.
Defined.

(** ** The fallback table *)

Lemma dashboard_after_failure requests_get now :
  (get_kenya_power_data requests_get).1.2 = false ->
  dashboard requests_get now = fallback_run now.
Proof.
  unfold dashboard.
  destruct (get_kenya_power_data requests_get) as [[api_data flag] warnings].
  cbn [fst snd]. intros ->. apply process_fallback. reflexivity.
Qed.




(** ** Total and values *)




(** ** Which calls return *)

Lemma exact_int (n : Z) :
  (F64.signed (n <? 0)%Z (inject_Z (Z.abs n)) == inject_Z n)%Q.
Proof.
  destruct (Z.ltb_spec n 0) as [N|N]; cbn [F64.signed].
  - rewrite Z.abs_neq by lia. rewrite inject_Z_opp. ring.
  - rewrite Z.abs_eq by lia. reflexivity.
Qed.

Lemma gt_zero_int a z :
  Py.as_int a = Some z -> Py.gt a (int_lit 0) = true <-> (0 < z)%Z.
Proof.
  intros A. unfold Py.gt. cbn [Py.exact int_lit Z.ltb Z.compare Z.abs].
  assert (E : exists s m, Py.exact a = F64.Fin s m
                          /\ (F64.signed s m == inject_Z z)%Q).
  { destruct a as [b|n|x]; simpl in A; try discriminate; injection A as <-.
    - exists false, (inject_Z (Z.b2z b)). split; reflexivity.
    - eexists _, _. split; [reflexivity | apply exact_int]. }
  destruct E as (s & m & -> & E). cbn [F64.lt].
  rewrite negb_true_iff, <- not_true_iff_false, Qle_bool_iff, E.
  change (F64.signed false (inject_Z (Z.abs 0))) with (inject_Z 0).
  rewrite <- Zle_Qle. lia.
Qed.

Lemma gt_zero_not_zero x :
  Py.gt (Py.NFloat x) (int_lit 0) = true -> F64.is_zero x = false.
Proof.
  destruct x as [|s|s a]; try reflexivity.
  unfold Py.gt. cbn [Py.exact int_lit Z.ltb Z.compare Z.abs F64.lt F64.is_zero].
  rewrite negb_true_iff, <- !not_true_iff_false, Qle_bool_iff, Qeq_bool_iff.
  change (F64.signed false (inject_Z 0)) with 0%Q.
  intros H E. apply H. destruct s; cbn [F64.signed]; rewrite E; discriminate.
Qed.

Lemma float_of_int_returns (n : Z) :
  (Z.abs n < 2 ^ 1023)%Z -> exists x, Py.float_of_int n = Py.Return x.
Proof.
  intros B. unfold Py.float_of_int.
  destruct (round_mag_finite (inject_Z (Z.abs n))) as [r R].
  - rewrite <- (Zle_Qle 0). lia.
  - rewrite <- pow2_inject by lia. rewrite <- Zlt_Qlt. exact B.
  - rewrite R. eexists; reflexivity.
Qed.

Lemma float_of_int_100 :
  Py.float_of_int 100 = Py.Return (F64.Fin false 100).
Proof. vm_compute. reflexivity. Qed.

Lemma mul_100_returns (x : F64.t) :
  Py.mul (Py.NFloat x) (int_lit 100)
  = Py.Return (Py.NFloat (F64.mul x (F64.Fin false 100))).
Proof.
  unfold Py.mul. cbn [Py.as_int int_lit Py.to_float Py.bind].
  rewrite float_of_int_100. reflexivity.
Qed.

Lemma integer_total_nonneg (vs : list Py.num) :
  Forall (λ v, Py.gt v (int_lit 0) = true) vs -> (0 <= integer_total vs)%Z.
Proof.
  induction 1 as [|v vs P _ IH]; simpl; [lia|].
  destruct (Py.as_int v) as [z|] eqn:A; simpl; [|lia].
  apply (gt_zero_int _ _ A) in P. lia.
Qed.

(** A sum of [int]s is exact. *)
Lemma sum_integers (vs : list Py.num) (n : Z) :
  Forall is_integer vs ->
  Py.for_state Py.add vs (Py.NInt n) = Py.Return (Py.NInt (n + integer_total vs)).
Proof.
  intros H. revert n. induction H as [|v vs [z A] _ IH]; intros n; simpl.
  - rewrite Z.add_0_r. reflexivity.
  - unfold Py.add at 1. cbn [Py.as_int]. rewrite A. simpl.
    rewrite IH. rewrite Z.add_assoc. reflexivity.
Qed.

(** A sum with a [float] in it returns when the [int]s that have to be
    converted are small enough. *)
Lemma sum_from_float (vs : list Py.num) (x : F64.t) :
  Forall (λ v, Py.gt v (int_lit 0) = true) vs ->
  (integer_total vs < 2 ^ 1023)%Z ->
  exists y, Py.for_state Py.add vs (Py.NFloat x) = Py.Return (Py.NFloat y).
Proof.
  intros P. revert x. induction P as [|v vs P Ps IH]; intros x B.
  - eexists; reflexivity.
  - simpl in B. pose proof (integer_total_nonneg _ Ps) as N.
    cbn [Py.for_state]. unfold Py.add at 1. cbn [Py.as_int Py.to_float Py.bind].
    assert (C : exists y, Py.to_float v = Py.Return y).
    { destruct v as [b|n|y]; simpl in B; cbn [Py.to_float].
      - apply float_of_int_returns. destruct b; simpl; lia.
      - apply float_of_int_returns.
        apply (gt_zero_int (Py.NInt n) n eq_refl) in P. lia.
      - eexists; reflexivity. }
    destruct C as [y ->]. cbn [Py.bind].
    apply IH.
    destruct (Py.as_int v) as [z|] eqn:A; simpl in B; [|lia].
    apply (gt_zero_int _ _ A) in P. lia.
Qed.

Lemma sum_bounded (vs : list Py.num) (n : Z) :
  Forall (λ v, Py.gt v (int_lit 0) = true) vs ->
  (0 <= n)%Z -> (n + integer_total vs < 2 ^ 1023)%Z ->
  ~ Forall is_integer vs ->
  exists y, Py.for_state Py.add vs (Py.NInt n) = Py.Return (Py.NFloat y).
Proof.
  intros P. revert n. induction P as [|v vs P Ps IH]; intros n N B F.
  - exfalso. apply F. constructor.
  - simpl in B. pose proof (integer_total_nonneg _ Ps) as T.
    cbn [Py.for_state]. unfold Py.add at 1. cbn [Py.as_int].
    destruct (Py.as_int v) as [z|] eqn:A; simpl in B.
    + pose proof (proj1 (gt_zero_int _ _ A) P) as Z.
      cbn [Py.bind]. apply IH; [lia | lia |].
      intros F'. apply F. constructor; [eexists; exact A | exact F'].
    + destruct v as [b|m|y]; try discriminate A.
      cbn [Py.to_float Py.bind].
      destruct (float_of_int_returns n) as [x ->]; [lia|].
      cbn [Py.bind]. apply sum_from_float; [exact Ps | lia].
Qed.

Lemma integer_member_le (vs : list Py.num) (v : Py.num) (z : Z) :
  Forall (λ v, Py.gt v (int_lit 0) = true) vs ->
  v ∈ vs -> Py.as_int v = Some z ->
  (0 < z)%Z /\ (z <= integer_total vs)%Z.
Proof.
  intros P I A. induction P as [|w vs Pw Ps IH]; [inversion I|].
  pose proof (integer_total_nonneg _ Ps) as N.
  apply elem_of_cons in I. destruct I as [<-|I]; simpl.
  - rewrite A. simpl. apply (gt_zero_int _ _ A) in Pw. lia.
  - destruct (IH I) as [Z B]. split; [exact Z|].
    destruct (Py.as_int w) as [y|] eqn:W; simpl; [|lia].
    apply (gt_zero_int _ _ W) in Pw. lia.
Qed.

Lemma truediv_integers (z n : Z) :
  (0 < z)%Z -> (z <= n)%Z ->
  exists r, F64.round_mag (Qabs (inject_Z z / inject_Z n)) = Some r.
Proof.
  intros Z B.
  assert (N : (0 < inject_Z n)%Q) by (rewrite <- (Zlt_Qlt 0); lia).
  assert (P : (0 <= inject_Z z / inject_Z n)%Q).
  { apply Qle_shift_div_l; [exact N|]. rewrite Qmult_0_l.
    rewrite <- (Zle_Qle 0). lia. }
  assert (U : (inject_Z z / inject_Z n <= 1)%Q).
  { apply Qle_shift_div_r; [exact N|]. rewrite Qmult_1_l.
    rewrite <- Zle_Qle. exact B. }
  apply round_mag_finite.
  - apply Qabs_nonneg.
  - rewrite Qabs_pos by exact P.
    eapply Qle_lt_trans; [exact U|]. apply (pow2_lt 0 1023). lia.
Qed.

(** The second loop returns for a record whose value went into an [int]
    total. *)
Lemma set_percentage_int_total (n z : Z) (record : PowerRecord) :
  Py.as_int (value record) = Some z -> (0 < z)%Z -> (z <= n)%Z ->
  exists record', set_percentage (Py.NInt n) record = Py.Return record'.
Proof.
  intros A Z B. unfold set_percentage.
  destruct (Py.gt (Py.NInt n) (int_lit 0)); [|eexists; reflexivity].
  unfold Py.truediv. cbn [Py.as_int]. rewrite A.
  assert (E : (n =? 0)%Z = false) by (apply Z.eqb_neq; lia).
  rewrite E. destruct (truediv_integers z n Z B) as [r ->].
  cbn [mbind result_bind Py.bind]. rewrite mul_100_returns.
  eexists; reflexivity.
Qed.

(** The second loop returns for a [float] total when the value, if it is
    an [int], can be converted. *)
Lemma set_percentage_float_total (x : F64.t) (record : PowerRecord) :
  (forall z, Py.as_int (value record) = Some z -> (Z.abs z < 2 ^ 1023)%Z) ->
  exists record', set_percentage (Py.NFloat x) record = Py.Return record'.
Proof.
  intros B. unfold set_percentage.
  destruct (Py.gt (Py.NFloat x) (int_lit 0)) eqn:G; [|eexists; reflexivity].
  unfold Py.truediv. cbn [Py.as_int].
  assert (C : exists y, Py.to_float (value record) = Py.Return y).
  { destruct (value record) as [b|m|y]; cbn [Py.to_float].
    - apply float_of_int_returns, B. reflexivity.
    - apply float_of_int_returns, B. reflexivity.
    - eexists; reflexivity. }
  destruct C as [y C].
  assert (D : match Py.as_int (value record) with
              | Some _ | _ =>
                  Py.bind (Py.to_float (value record))
                    (λ x0, Py.bind (Py.to_float (Py.NFloat x))
                       (λ y0, if F64.is_zero y0
                              then Py.Raise (Py.Raised Py.ZeroDivisionError
                                               "float division by zero")
                              else Py.Return (Py.NFloat (F64.div x0 y0))))
              end = Py.Return (Py.NFloat (F64.div y x))).
  { rewrite C. cbn [Py.bind Py.to_float].
    rewrite (gt_zero_not_zero _ G). destruct (Py.as_int (value record)); reflexivity. }
  rewrite D. cbn [mbind result_bind Py.bind]. rewrite mul_100_returns.
  eexists; reflexivity.
Qed.

Lemma round_mag_positive (a r : Q) :
  on_grid a -> (0 < a)%Q -> F64.round_mag a = Some r -> (0 < r)%Q.
Proof.
  intros G P R.
  pose proof (round_mag_error_grid a r G (Qlt_le_weak _ _ P) R) as E.
  apply Qabs_Qle_condition in E. destruct E as [E _].
  assert (U : (F64.pow2 (-53) < 1)%Q) by (apply (pow2_lt (-53) 0); lia).
  nra.
Qed.

Lemma float_of_int_cases (n : Z) :
  (exists r, Py.float_of_int n = Py.Return (F64.Fin (n <? 0)%Z r)
             /\ F64.round_mag (inject_Z (Z.abs n)) = Some r)
  \/ Py.float_of_int n
     = Py.Raise (Py.Raised Py.OverflowError "int too large to convert to float").
Proof.
  unfold Py.float_of_int.
  destruct (F64.round_mag (inject_Z (Z.abs n))) as [r|];
    [left; eexists; split; reflexivity | right; reflexivity].
Qed.

Lemma float_of_int_not_zero (n : Z) (x : F64.t) :
  n <> 0%Z -> Py.float_of_int n = Py.Return x -> F64.is_zero x = false.
Proof.
  intros N H. destruct (float_of_int_cases n) as [(r & E & R)|E];
    rewrite E in H; [|discriminate]. injection H as <-.
  cbn [F64.is_zero]. apply not_true_iff_false. rewrite Qeq_bool_iff.
  intros Z. apply (round_mag_positive _ _ (on_grid_int _)) in R.
  - rewrite Z in R. apply (Qlt_irrefl _ R).
  - rewrite <- (Zlt_Qlt 0). lia.
Qed.

Lemma to_float_cases (a : Py.num) :
  (exists x, Py.to_float a = Py.Return x)
  \/ Py.to_float a
     = Py.Raise (Py.Raised Py.OverflowError "int too large to convert to float").
Proof.
  destruct a as [b|n|x]; cbn [Py.to_float].
  - destruct (float_of_int_cases (Z.b2z b)) as [(r & E & _)|E];
      [left; eexists; exact E | right; exact E].
  - destruct (float_of_int_cases n) as [(r & E & _)|E];
      [left; eexists; exact E | right; exact E].
  - left. eexists; reflexivity.
Qed.

(** A division whose divisor passed the test [> 0] fails, if it fails,
    with [OverflowError]. *)
Lemma truediv_guarded (a b : Py.num) (e : Py.exn) :
  Py.gt b (int_lit 0) = true ->
  Py.truediv a b = Py.Raise e ->
  exists msg, e = Py.Raised Py.OverflowError msg.
Proof.
  intros G H. unfold Py.truediv in H.
  assert (Z : forall y, Py.to_float b = Py.Return y -> F64.is_zero y = false).
  { intros y T. destruct (Py.as_int b) as [n|] eqn:B.
    - apply (gt_zero_int _ _ B) in G.
      destruct b as [c|m|x]; try discriminate B; simpl in B; injection B as B;
        subst n; cbn [Py.to_float] in T;
        eapply float_of_int_not_zero; try exact T; lia.
    - destruct b as [c|m|x]; try discriminate B. cbn [Py.to_float] in T.
      injection T as <-. apply gt_zero_not_zero, G. }
  assert (F : Py.bind (Py.to_float a)
                (λ x, Py.bind (Py.to_float b)
                   (λ y, if F64.is_zero y
                         then Py.Raise (Py.Raised Py.ZeroDivisionError
                                          "float division by zero")
                         else Py.Return (Py.NFloat (F64.div x y))))
              = Py.Raise e ->
              exists msg, e = Py.Raised Py.OverflowError msg).
  { clear H. intros H.
    destruct (to_float_cases a) as [[x A]|A]; rewrite A in H; cbn [Py.bind] in H;
      [|injection H as <-; eexists; reflexivity].
    destruct (to_float_cases b) as [[y B]|B]; rewrite B in H; cbn [Py.bind] in H;
      [|injection H as <-; eexists; reflexivity].
    rewrite (Z y B) in H. discriminate H. }
  destruct (Py.as_int a) as [x|] eqn:A; [|exact (F H)].
  destruct (Py.as_int b) as [y|] eqn:B; [|exact (F H)].
  apply (gt_zero_int _ _ B) in G.
  assert (E : (y =? 0)%Z = false) by (apply Z.eqb_neq; lia).
  rewrite E in H.
  destruct (F64.round_mag (Qabs (inject_Z x / inject_Z y))); [discriminate H|].
  injection H as <-. eexists; reflexivity.
Qed.

Lemma truediv_float (a b q : Py.num) :
  Py.truediv a b = Py.Return q -> exists x, q = Py.NFloat x.
Proof.
  unfold Py.truediv. intros H.
  assert (F : Py.bind (Py.to_float a)
                (λ x, Py.bind (Py.to_float b)
                   (λ y, if F64.is_zero y
                         then Py.Raise (Py.Raised Py.ZeroDivisionError
                                          "float division by zero")
                         else Py.Return (Py.NFloat (F64.div x y))))
              = Py.Return q -> exists x, q = Py.NFloat x).
  { clear H. intros H.
    destruct (Py.to_float a) as [x|]; [|discriminate H].
    destruct (Py.to_float b) as [y|]; [|discriminate H].
    cbn [Py.bind] in H. destruct (F64.is_zero y); [discriminate H|].
    injection H as <-. eexists; reflexivity. }
  destruct (Py.as_int a) as [x|]; [|exact (F H)].
  destruct (Py.as_int b) as [y|]; [|exact (F H)].
  destruct (y =? 0)%Z; [discriminate H|].
  destruct (F64.round_mag (Qabs (inject_Z x / inject_Z y)));
    [|discriminate H].
  injection H as <-. eexists; reflexivity.
Qed.

(** The division of the second loop never divides by zero. *)
Lemma set_percentage_guarded (total : Py.num) (record : PowerRecord) (e : Py.exn) :
  set_percentage total record = Py.Raise e ->
  exists msg, e = Py.Raised Py.OverflowError msg.
Proof.
  unfold set_percentage. intros H.
  destruct (Py.gt total (int_lit 0)) eqn:G; [|discriminate H].
  destruct (Py.truediv (value record) total) as [q|e'] eqn:D.
  - cbn [mbind result_bind Py.bind] in H.
    destruct (truediv_float _ _ _ D) as [x ->].
    rewrite mul_100_returns in H. discriminate H.
  - cbn [mbind result_bind Py.bind] in H. injection H as <-.
    apply (truediv_guarded _ _ _ G D).
Qed.

Lemma live_run_summable mix timestamp :
  summable mix ->
  exists records total,
    live_run mix timestamp = Py.Return (records, timestamp, total, "Live Data").
Proof.
  intros [T B]. unfold live_run. rewrite (collect_loop_typed _ _ T).
  cbn [fst snd app].
  pose proof (kept_positive mix) as P.
  assert (P' : Forall (λ v, Py.gt v (int_lit 0) = true) (map snd (kept mix))).
  { apply Forall_fmap. exact P. }
  assert (S : exists total,
             Py.for_state Py.add (map snd (kept mix)) (int_lit 0)
             = Py.Return total
             /\ Forall (λ kv, exists r,
                          set_percentage total (fresh_record kv) = Py.Return r)
                       (kept mix)).
  { destruct (decide (Forall is_integer (map snd (kept mix)))) as [I|F].
    - eexists. split; [apply sum_integers, I|].
      apply Forall_forall. intros kv K.
      assert (M : kv.2 ∈ map snd (kept mix)).
      { apply list_elem_of_fmap. exists kv. split; [reflexivity | exact K]. }
      rewrite Forall_forall in I. destruct (I _ M) as [z A].
      destruct (integer_member_le _ _ _ P' M A) as [Z L].
      apply (set_percentage_int_total _ z); [exact A | exact Z | lia].
    - destruct B as [I|B]; [destruct (F I)|].
      destruct (sum_bounded _ 0 P' (Z.le_refl 0) B F) as [y Y].
      eexists. split; [exact Y|].
      apply Forall_forall. intros kv K.
      assert (M : kv.2 ∈ map snd (kept mix)).
      { apply list_elem_of_fmap. exists kv. split; [reflexivity | exact K]. }
      apply set_percentage_float_total. intros z A.
      destruct (integer_member_le _ _ _ P' M A) as [Z L].
      cbn [fresh_record value] in A. lia. }
  destruct S as (total & -> & R). cbn [mbind result_bind Py.bind mret result_ret].
  destruct (for_each_returns (set_percentage total)
              (map fresh_record (kept mix))) as [records E].
  { apply Forall_fmap. exact R. }
  rewrite E. eexists _, _. reflexivity.
Qed.

(** ** Totality *)

(** C3, as stated, fails.  Three bodies the service can send with status
    200 and the breakdown key, after which [process_kenya_data] raises:
    a breakdown that is [null], an entry that is a string, and an [int]
    entry too large for a [float] next to a [float] entry. *)
Lemma process_kenya_data_raises :
  let fetched body := Py.Return (mkResponse 200 (Py.Return body)) in
  let now := "2024-05-01T12:00:00" in
  dashboard (fetched (Py.Dict [(breakdown_key, Py.None_)])) now
  = Py.Raise (Py.Raised Py.AttributeError
                "'NoneType' object has no attribute 'items'")
  /\ dashboard (fetched (payload [("hydro", Py.Str "800")] None)) now
     = Py.Raise (Py.Raised Py.TypeError
                   "'>' not supported between instances of 'str' and 'int'")
  /\ dashboard
       (fetched (payload [ ("hydro", Py.Num (int_lit (10 ^ 400)));
                           ("wind", Py.Num (float_lit 0.5)) ] None)) now
     = Py.Raise (Py.Raised Py.OverflowError
                   "int too large to convert to float").
Proof.
  cbv zeta. split; [reflexivity|]. split; [reflexivity|].
  vm_compute. reflexivity.
Qed.

(** C3, amended.  [process_kenya_data] returns a complete result
    whenever [use_live] is false, [api_data] is [None], [api_data] is a
    mapping without the breakdown key, or it is a mapping whose
    breakdown is a mapping of entries that are [None] or numbers and
    whose [int] entries can be added to the [float] ones.  The division
    of the second loop is guarded: a total that is not greater than [0]
    gives the percentage [0], and no total makes it raise
    [ZeroDivisionError]. *)
Theorem process_kenya_data_returns :
  (forall api_data use_live now,
      use_live = false
      \/ api_data = Py.None_
      \/ (exists entries,
            api_data = Py.Dict entries
            /\ (Py.lookup breakdown_key entries = None
                \/ exists mix,
                    Py.lookup breakdown_key entries = Some (Py.Dict mix)
                    /\ summable mix)) ->
      exists records timestamp total label,
        process_kenya_data api_data use_live now
        = Py.Return (records, timestamp, total, label))
  /\ (forall total record,
        Py.gt total (int_lit 0) = false ->
        set_percentage total record
        = Py.Return (mkRecord (source record) (value record) (int_lit 0)))
  /\ (forall total record msg,
        set_percentage total record
        <> Py.Raise (Py.Raised Py.ZeroDivisionError msg)).
Proof.
  split; [|split].
  - intros api_data use_live now H.
    assert (F : live_condition api_data use_live = Py.Return false ->
                exists records timestamp total label,
                  process_kenya_data api_data use_live now
                  = Py.Return (records, timestamp, total, label)).
    { intros C. rewrite (process_fallback _ _ _ C), fallback_run_eq.
      eexists _, _, _, _. reflexivity. }
    destruct H as [->|[->|(entries & -> & [N|(mix & L & S)])]].
    + apply F. reflexivity.
    + apply F. destruct use_live; reflexivity.
    + apply F. rewrite live_condition_dict, N. destruct use_live; reflexivity.
    + destruct use_live.
      * rewrite (process_live _ _ _ L).
        destruct (live_run_summable
                    mix (default (Py.Str now) (Py.lookup "datetime" entries)) S)
          as (records & total & ->).
        eexists _, _, _, _. reflexivity.
      * apply F. reflexivity.
  - intros total record G. unfold set_percentage. rewrite G. reflexivity.
  - intros total record msg H. apply set_percentage_guarded in H.
    destruct H as [msg' H]. discriminate H.
Qed.

(** A breakdown without a positive entry: no record, total [0], no
    division. *)
Lemma process_kenya_data_returns_witness :
  exists records timestamp total label,
    process_kenya_data
      (payload [("hydro", Py.Num (int_lit 0)); ("wind", Py.None_)] None)
      true "12:00"
    = Py.Return (records, timestamp, total, label).
Proof.
  apply (proj1 process_kenya_data_returns). right. right.
  eexists. split; [reflexivity|]. right.
  eexists. split; [reflexivity|]. split.
  - apply List.Forall_cons; [right; eexists; reflexivity|].
    apply List.Forall_cons; [left; reflexivity|]. apply List.Forall_nil.
  - left. apply List.Forall_nil.
Defined.

(** * Rounding errors of the live branch *)

Lemma unit_roundoff_value : (unit_roundoff == 1 # 9007199254740992)%Q.
Proof. reflexivity. Qed.

Lemma unit_roundoff_bounds : (0 < unit_roundoff)%Q /\ (unit_roundoff < 1 # 1000)%Q.
Proof. rewrite unit_roundoff_value. split; reflexivity. Qed.

Lemma underflow_pos : (0 < underflow)%Q.
Proof. apply pow2_pos. Qed.

Lemma near_refl (a : Q) : near 0 0 a a.
Proof. unfold near. split; lra. Qed.

Lemma near_weaken (e e' d d' a b : Q) :
  (0 <= a)%Q -> (0 <= b)%Q -> (e <= e')%Q -> (d <= d')%Q ->
  near e d a b -> near e' d' a b.
Proof.
  unfold near. intros A B E D [H1 H2].
  assert (P1 : (0 <= a * (e' - e))%Q) by (apply Qmult_le_0_compat; lra).
  assert (P2 : (0 <= b * (e' - e))%Q) by (apply Qmult_le_0_compat; lra).
  split; lra.
Qed.

Lemma near_trans (e1 d1 e2 d2 a b c : Q) :
  (0 <= a)%Q -> (0 <= c)%Q ->
  (0 <= e1)%Q -> (e1 <= 1)%Q -> (0 <= e2)%Q -> (e2 <= 1)%Q ->
  (0 <= d1)%Q -> (0 <= d2)%Q ->
  near e1 d1 a b -> near e2 d2 b c -> near (e1 + e2) (d1 + d2) a c.
Proof.
  unfold near. intros A C E1 E1' E2 E2' D1 D2 [H1 H2] [H3 H4].
  assert (P1 : (0 <= (b - (a * (1 - e1) - d1)) * (1 - e2))%Q)
    by (apply Qmult_le_0_compat; lra).
  assert (P2 : (0 <= a * (e1 * e2))%Q)
    by (apply Qmult_le_0_compat; [lra | apply Qmult_le_0_compat; lra]).
  assert (P3 : (0 <= d1 * e2)%Q) by (apply Qmult_le_0_compat; lra).
  assert (P4 : (0 <= (b - (c * (1 - e2) - d2)) * (1 - e1))%Q)
    by (apply Qmult_le_0_compat; lra).
  assert (P5 : (0 <= c * (e1 * e2))%Q)
    by (apply Qmult_le_0_compat; [lra | apply Qmult_le_0_compat; lra]).
  assert (P6 : (0 <= d2 * e1)%Q) by (apply Qmult_le_0_compat; lra).
  split; lra.
Qed.

Lemma near_plus (e d d' a b a' b' : Q) :
  near e d a b -> near e d' a' b' -> near e (d + d') (a + a') (b + b').
Proof. unfold near. intros [H1 H2] [H3 H4]. split; lra. Qed.

Lemma near_scale (k e d a b : Q) :
  (0 <= k)%Q -> near e d a b -> near e (k * d) (k * a) (k * b).
Proof.
  unfold near. intros K [H1 H2].
  assert (P1 : (0 <= k * (b - (a * (1 - e) - d)))%Q)
    by (apply Qmult_le_0_compat; lra).
  assert (P2 : (0 <= k * (a - (b * (1 - e) - d)))%Q)
    by (apply Qmult_le_0_compat; lra).
  split; lra.
Qed.

Lemma near_proper (e d a a' b b' : Q) :
  (a == a')%Q -> (b == b')%Q -> near e d a b -> near e d a' b'.
Proof. unfold near. intros -> ->. tauto. Qed.

(** Dividing by two divisors that are near each other. *)
Lemma near_div_r (e a c c' : Q) :
  (0 <= a)%Q -> (0 < c)%Q -> (0 < c')%Q ->
  near e 0 c c' -> near e 0 (a / c) (a / c').
Proof.
  unfold near. intros A C C' [H1 H2].
  assert (X : (a / c * c == a)%Q) by (field; lra).
  assert (Y : (a / c' * c' == a)%Q) by (field; lra).
  assert (PX : (0 <= a / c)%Q)
    by (apply Qle_shift_div_l; [exact C | lra]).
  assert (PY : (0 <= a / c')%Q)
    by (apply Qle_shift_div_l; [exact C' | lra]).
  set (x := (a / c)%Q) in *. set (y := (a / c')%Q) in *.
  split.
  - (* x (1 - e) <= y, from c' (1 - e) <= c *)
    assert (P : (0 <= x * (c - (c' * (1 - e) - 0)))%Q)
      by (apply Qmult_le_0_compat; lra).
    assert (G : (0 <= (y - x * (1 - e)) * c')%Q) by lra.
    destruct (Qlt_le_dec (y - x * (1 - e)) 0) as [N|N]; [|lra].
    exfalso.
    assert (M : (0 < (x * (1 - e) - y) * c')%Q)
      by (apply Qmult_lt_0_compat; lra).
    lra.
  - assert (P : (0 <= y * (c' - (c * (1 - e) - 0)))%Q)
      by (apply Qmult_le_0_compat; lra).
    assert (G : (0 <= (x - y * (1 - e)) * c)%Q) by lra.
    destruct (Qlt_le_dec (x - y * (1 - e)) 0) as [N|N]; [|lra].
    exfalso.
    assert (M : (0 < (y * (1 - e) - x) * c)%Q)
      by (apply Qmult_lt_0_compat; lra).
    lra.
Qed.

Lemma near_div_l (e d a b c : Q) :
  (0 < c)%Q -> near e d a b -> near e (d / c) (a / c) (b / c).
Proof.
  intros C H. apply (near_scale (/ c)) in H.
  - eapply near_proper; [| |].
    3: { unfold near in *. destruct H as [H1 H2].
         assert (E : (/ c * d == d / c)%Q) by (field; lra).
         rewrite E in H1, H2. split; [exact H1 | exact H2]. }
    + field; lra.
    + field; lra.
  - apply Qlt_le_weak, Qinv_lt_0_compat, C.
Qed.

Lemma near_upper (e d a b : Q) :
  (e <= 1 # 2)%Q -> (0 <= b)%Q -> near e d a b -> (b <= 2 * (a + d))%Q.
Proof.
  unfold near. intros E B [_ H].
  assert (P : (0 <= b * ((1 # 2) - e))%Q) by (apply Qmult_le_0_compat; lra).
  lra.
Qed.

Lemma near_lower (e a b : Q) :
  near e 0 a b -> (e < 1)%Q -> (0 < a)%Q -> (0 < b)%Q.
Proof.
  unfold near. intros [H _] E A.
  assert (P : (0 < a * (1 - e))%Q) by (apply Qmult_lt_0_compat; lra).
  lra.
Qed.

(** Rounding, in terms of [near]. *)
Lemma near_round (a r : Q) :
  (0 <= a)%Q -> F64.round_mag a = Some r ->
  near unit_roundoff underflow a r.
Proof.
  intros A R. pose proof (round_mag_error_bound a r A R) as E.
  pose proof (round_mag_nonneg a r A R) as P.
  apply Qabs_Qle_condition in E. destruct E as [E1 E2].
  fold unit_roundoff underflow in E1, E2.
  pose proof unit_roundoff_bounds as [U0 U1]. pose proof underflow_pos as D.
  unfold near.
  assert (P1 : (0 <= (a * (1 + unit_roundoff) + underflow - r)
                     * (1 - unit_roundoff))%Q)
    by (apply Qmult_le_0_compat; lra).
  assert (P2 : (0 <= a * (unit_roundoff * unit_roundoff))%Q)
    by (apply Qmult_le_0_compat; [lra | apply Qmult_le_0_compat; lra]).
  assert (P3 : (0 <= underflow * unit_roundoff)%Q)
    by (apply Qmult_le_0_compat; lra).
  split; lra.
Qed.

Lemma near_round_grid (a r : Q) :
  on_grid a -> (0 <= a)%Q -> F64.round_mag a = Some r ->
  near unit_roundoff 0 a r.
Proof.
  intros G A R. pose proof (round_mag_error_grid a r G A R) as E.
  pose proof (round_mag_nonneg a r A R) as P.
  apply Qabs_Qle_condition in E. destruct E as [E1 E2].
  fold unit_roundoff in E1, E2.
  pose proof unit_roundoff_bounds as [U0 U1].
  unfold near.
  assert (P1 : (0 <= (a * (1 + unit_roundoff) - r) * (1 - unit_roundoff))%Q)
    by (apply Qmult_le_0_compat; lra).
  assert (P2 : (0 <= a * (unit_roundoff * unit_roundoff))%Q)
    by (apply Qmult_le_0_compat; [lra | apply Qmult_le_0_compat; lra]).
  split; lra.
Qed.

Lemma on_grid_zero : on_grid 0.
Proof. exists 0%Z. reflexivity. Qed.

Lemma on_grid_proper (a b : Q) : (a == b)%Q -> on_grid a -> on_grid b.
Proof. intros E [k K]. exists k. rewrite <- E. exact K. Qed.

Lemma real_of_nonneg (a : Py.num) : nonneg_number a -> (0 <= real_of a)%Q.
Proof.
  destruct a as [b|n|[|s|[|] m]]; simpl; try tauto.
  - intros _. destruct b; discriminate.
  - intros N. rewrite <- (Zle_Qle 0). exact N.
Qed.

Lemma real_of_int (a : Py.num) (z : Z) :
  Py.as_int a = Some z -> real_of a = inject_Z z.
Proof. destruct a; simpl; intros H; try discriminate; injection H as <-; reflexivity. Qed.

Lemma nonneg_int (a : Py.num) (z : Z) :
  Py.as_int a = Some z -> nonneg_number a -> (0 <= z)%Z.
Proof.
  destruct a as [b|n|x]; simpl; intros H; try discriminate; injection H as <-.
  - intros _. destruct b; simpl; lia.
  - tauto.
Qed.

Lemma pow2_1023 : (F64.pow2 1023 == 2 * F64.pow2 1022)%Q.
Proof. apply (pow2_succ 1022). Qed.

(** The conversion of an operand to [float]. *)
Lemma to_float_near (a : Py.num) :
  nonneg_number a -> (real_of a < F64.pow2 1023)%Q ->
  exists m,
    Py.to_float a = Py.Return (F64.Fin false m)
    /\ (0 <= m)%Q /\ on_grid m /\ near unit_roundoff 0 (real_of a) m.
Proof.
  intros N B.
  assert (I : forall z, Py.as_int a = Some z ->
                        exists m,
                          Py.float_of_int z = Py.Return (F64.Fin false m)
                          /\ (0 <= m)%Q /\ on_grid m
                          /\ near unit_roundoff 0 (real_of a) m).
  { intros z A. pose proof (nonneg_int _ _ A N) as Z.
    rewrite (real_of_int _ _ A) in *.
    unfold Py.float_of_int. rewrite Z.abs_eq by exact Z.
    assert (P : (0 <= inject_Z z)%Q) by (rewrite <- (Zle_Qle 0); exact Z).
    destruct (round_mag_finite (inject_Z z) P B) as [r R]. rewrite R.
    assert (L : (z <? 0)%Z = false) by (apply Z.ltb_ge; exact Z).
    rewrite L. exists r. split; [reflexivity|].
    split; [exact (round_mag_nonneg _ _ P R)|].
    split; [exact (round_mag_grid _ _ P R)|].
    apply near_round_grid; [apply on_grid_int | exact P | exact R]. }
  destruct a as [b|n|[|s|[|] m]]; try (simpl in N; tauto).
  - apply (I _ eq_refl).
  - apply (I _ eq_refl).
  - simpl in N. destruct N as [M G]. exists m.
    split; [reflexivity|]. split; [exact M|]. split; [exact G|].
    pose proof unit_roundoff_bounds as [U0 _].
    apply (near_weaken 0 _ 0 _); try (simpl; lra). apply near_refl.
Qed.

(** A rounded sum of two magnitudes of the grid. *)
Lemma float_add_near (x y : Q) :
  (0 <= x)%Q -> (0 <= y)%Q -> on_grid x -> on_grid y ->
  (x + y < F64.pow2 1023)%Q ->
  exists r,
    F64.add (F64.Fin false x) (F64.Fin false y) = F64.Fin false r
    /\ (0 <= r)%Q /\ on_grid r /\ near unit_roundoff 0 (x + y) r.
Proof.
  intros X Y GX GY B. cbn [F64.add F64.signed].
  pose proof unit_roundoff_bounds as [U0 _].
  destruct (Qeq_bool (x + y) 0) eqn:Z.
  - apply Qeq_bool_iff in Z. exists 0%Q.
    split; [destruct (Qeq_bool x 0); reflexivity|].
    split; [lra|]. split; [apply on_grid_zero|].
    unfold near. rewrite Z. split; lra.
  - assert (S : (0 <= x + y)%Q) by lra.
    assert (L : Qle_bool 0 (x + y) = true) by (apply Qle_bool_iff; exact S).
    rewrite L. cbn [negb]. unfold F64.rounded.
    rewrite (round_mag_proper (Qabs (x + y)) (x + y))
      by (try apply Qabs_nonneg; apply Qabs_pos; exact S).
    destruct (round_mag_finite (x + y) S B) as [r R]. rewrite R.
    exists r. split; [reflexivity|].
    split; [exact (round_mag_nonneg _ _ S R)|].
    split; [exact (round_mag_grid _ _ S R)|].
    apply near_round_grid; [apply on_grid_plus; assumption | exact S | exact R].
Qed.

(** One addition of the running total. *)
Lemma add_near (t v : Py.num) (s e : Q) :
  nonneg_number t -> nonneg_number v ->
  (0 <= s)%Q -> (0 <= e)%Q ->
  (e + 2 * unit_roundoff <= 1 # 2)%Q ->
  near e 0 s (real_of t) ->
  (s + real_of v < F64.pow2 1022)%Q ->
  exists t',
    Py.add t v = Py.Return t'
    /\ nonneg_number t'
    /\ near (e + 2 * unit_roundoff) 0 (s + real_of v) (real_of t').
Proof.
  intros NT NV S E E' H B.
  pose proof unit_roundoff_bounds as [U0 U1].
  pose proof (real_of_nonneg _ NT) as RT. pose proof (real_of_nonneg _ NV) as RV.
  pose proof pow2_1023 as P23.
  assert (BT : (real_of t < F64.pow2 1023)%Q).
  { assert (E2 : (e <= 1 # 2)%Q) by lra.
    pose proof (near_upper _ _ _ _ E2 RT H). lra. }
  assert (BV : (real_of v < F64.pow2 1023)%Q) by lra.
  assert (F : exists r,
             Py.bind (Py.to_float t)
               (λ x, Py.bind (Py.to_float v)
                       (λ y, Py.Return (Py.NFloat (F64.add x y))))
             = Py.Return (Py.NFloat (F64.Fin false r))
             /\ (0 <= r)%Q /\ on_grid r
             /\ near (e + 2 * unit_roundoff) 0 (s + real_of v) r).
  { destruct (to_float_near t NT BT) as (x & -> & X & GX & HX).
    destruct (to_float_near v NV BV) as (y & -> & Y & GY & HY).
    cbn [Py.bind].
    assert (HS : near (e + unit_roundoff) 0 (s + real_of v) (x + y)).
    { apply (near_proper _ _ (s + real_of v) _ (x + y) _ ltac:(reflexivity)
               ltac:(reflexivity)).
      assert (Z : (0 == 0 + 0)%Q) by reflexivity.
      assert (H1 : near (e + unit_roundoff) (0 + 0) s x).
      { apply (near_trans e 0 unit_roundoff 0 s (real_of t) x);
          try lra; assumption. }
      assert (H2 : near (e + unit_roundoff) 0 (real_of v) y).
      { apply (near_weaken unit_roundoff _ 0 _); try lra. exact HY. }
      pose proof (near_plus _ _ _ _ _ _ _ H1 H2) as H3.
      unfold near in *. destruct H3 as [H3 H4]. split; lra. }
    assert (BS : (x + y < F64.pow2 1023)%Q).
    { assert (E2 : (e + unit_roundoff <= 1 # 2)%Q) by lra.
      assert (XY : (0 <= x + y)%Q) by lra.
      pose proof (near_upper _ _ _ _ E2 XY HS). lra. }
    destruct (float_add_near x y X Y GX GY BS) as (r & -> & R & GR & HR).
    exists r. split; [reflexivity|]. split; [exact R|]. split; [exact GR|].
    assert (H4 : near (e + unit_roundoff + unit_roundoff) (0 + 0)
                      (s + real_of v) r).
    { apply (near_trans _ 0 _ 0 _ (x + y)); try lra; assumption. }
    unfold near in *. destruct H4 as [H4 H5]. split; lra. }
  unfold Py.add.
  destruct (Py.as_int t) as [a|] eqn:A; [|destruct F as (r & -> & R & G & N);
    eexists; split; [reflexivity|]; split; [split; assumption | exact N]].
  destruct (Py.as_int v) as [b|] eqn:Bv; [|destruct F as (r & -> & R & G & N);
    eexists; split; [reflexivity|]; split; [split; assumption | exact N]].
  eexists. split; [reflexivity|].
  pose proof (nonneg_int _ _ A NT). pose proof (nonneg_int _ _ Bv NV).
  split; [simpl; lia|].
  rewrite (real_of_int _ _ A) in *. rewrite (real_of_int _ _ Bv) in *.
  cbn [real_of]. rewrite inject_Z_plus.
  apply (near_weaken e _ 0 _); try lra.
  assert (Z : (0 == 0 + 0)%Q) by reflexivity.
  pose proof (near_plus e 0 0 _ _ _ _ H
                (near_weaken 0 e 0 0 _ _ RV RV E ltac:(lra) (near_refl _))) as H3.
  unfold near in *. destruct H3 as [H3 H4]. split; lra.
Qed.

Lemma Qsum_nonneg (xs : list Q) : Forall (λ x, (0 <= x)%Q) xs -> (0 <= Qsum xs)%Q.
Proof. induction 1 as [|x xs X _ IH]; simpl; lra. Qed.

Lemma real_sum_nonneg (vs : list Py.num) :
  Forall nonneg_number vs -> (0 <= Qsum (map real_of vs))%Q.
Proof.
  intros H. apply Qsum_nonneg, Forall_fmap.
  eapply Forall_impl; [exact H|]. intros v. apply real_of_nonneg.
Qed.

(** The running total of a loop of additions: each step adds at most two
    roundings. *)
Lemma sum_near (vs : list Py.num) :
  Forall nonneg_number vs ->
  forall (t : Py.num) (s e : Q),
    nonneg_number t -> (0 <= s)%Q -> (0 <= e)%Q ->
    near e 0 s (real_of t) ->
    (e + 2 * inject_Z (Z.of_nat (length vs)) * unit_roundoff <= 1 # 2)%Q ->
    (s + Qsum (map real_of vs) < F64.pow2 1022)%Q ->
    exists total,
      Py.for_state Py.add vs t = Py.Return total
      /\ nonneg_number total
      /\ near (e + 2 * inject_Z (Z.of_nat (length vs)) * unit_roundoff) 0
              (s + Qsum (map real_of vs)) (real_of total).
Proof.
  pose proof unit_roundoff_bounds as [U0 U1].
  induction 1 as [|v vs NV NVs IH]; intros t s e NT S E H E' B.
  - exists t. split; [reflexivity|]. split; [exact NT|].
    cbn [length map Qsum foldr]. change (inject_Z (Z.of_nat 0)) with 0%Q.
    unfold near in *. destruct H as [H1 H2].
    split; lra.
  - cbn [length map Qsum foldr] in *. fold (Qsum (map real_of vs)) in *.
    rewrite Nat2Z.inj_succ, <- Z.add_1_r, inject_Z_plus in *.
    change (inject_Z 1) with 1%Q in *.
    set (n := inject_Z (Z.of_nat (length vs))) in *.
    assert (N : (0 <= n)%Q) by (unfold n; rewrite <- (Zle_Qle 0); lia).
    assert (NU : (0 <= n * unit_roundoff)%Q) by (apply Qmult_le_0_compat; lra).
    pose proof (real_of_nonneg _ NV) as RV.
    pose proof (real_sum_nonneg _ NVs) as RS.
    destruct (add_near t v s e NT NV S E) as (t' & A & NT' & H');
      [lra | exact H | lra |].
    cbn [Py.for_state]. rewrite A. cbn [Py.bind].
    destruct (IH t' (s + real_of v)%Q (e + 2 * unit_roundoff)%Q NT')
      as (total & L & NTot & HT); [lra | lra | exact H' | lra | lra |].
    exists total. split; [exact L|]. split; [exact NTot|].
    unfold near in *. destruct HT as [H1 H2]. split; lra.
Qed.

(** [sum] of numbers that are not negative. *)
Lemma Py_sum_near (vs : list Py.num) :
  Forall nonneg_number vs ->
  (2 * inject_Z (Z.of_nat (length vs)) * unit_roundoff <= 1 # 2)%Q ->
  (Qsum (map real_of vs) < F64.pow2 1022)%Q ->
  exists total,
    Py.sum vs = Py.Return total
    /\ nonneg_number total
    /\ near (2 * inject_Z (Z.of_nat (length vs)) * unit_roundoff) 0
            (Qsum (map real_of vs)) (real_of total).
Proof.
  intros N E B.
  destruct (sum_near vs N (Py.NInt 0) 0 0) as (total & S & NT & H).
  - simpl. lia.
  - lra.
  - lra.
  - apply near_refl.
  - lra.
  - lra.
  - exists total. split; [exact S|]. split; [exact NT|].
    unfold near in *. destruct H as [H1 H2]. split; lra.
Qed.

Lemma gt_zero_nonneg (a : Py.num) :
  nonneg_number a -> Py.gt a (int_lit 0) = true <-> (0 < real_of a)%Q.
Proof.
  intros N. destruct (Py.as_int a) as [z|] eqn:A.
  - rewrite (gt_zero_int _ _ A), (real_of_int _ _ A).
    rewrite <- (Zlt_Qlt 0). reflexivity.
  - destruct a as [b|n|[|s|[|] m]]; try discriminate A; try (simpl in N; tauto).
    unfold Py.gt.
    cbn [Py.exact int_lit Z.ltb Z.compare F64.lt real_of F64.signed].
    rewrite negb_true_iff, <- not_true_iff_false, Qle_bool_iff.
    change (inject_Z (Z.abs 0)) with 0%Q.
    split; [apply Qnot_le_lt | apply Qlt_not_le].
Qed.

(** A strictly positive entry that is finite is a number of the
    analysis. *)
Lemma finite_positive_nonneg (a : Py.num) :
  finite_number a -> Py.gt a (int_lit 0) = true ->
  nonneg_number a /\ (0 < real_of a)%Q.
Proof.
  intros F G.
  assert (N : nonneg_number a).
  { destruct (Py.as_int a) as [z|] eqn:A.
    - apply (gt_zero_int _ _ A) in G.
      destruct a as [b|n|x]; try discriminate A; simpl; [exact I|].
      simpl in A. injection A as ->. lia.
    - destruct a as [b|n|[|s|s m]]; try discriminate A; try (simpl in F; tauto).
      simpl in F. destruct F as [M R].
      unfold Py.gt in G.
      cbn [Py.exact int_lit Z.ltb Z.compare Z.abs F64.lt] in G.
      rewrite negb_true_iff, <- not_true_iff_false, Qle_bool_iff in G.
      change (F64.signed false (inject_Z (Z.abs 0))) with 0%Q in G.
      destruct s; cbn [F64.signed] in G.
      + exfalso. apply G. lra.
      + simpl. split; [exact M | exact (round_mag_grid _ _ M R)]. }
  split; [exact N | apply (gt_zero_nonneg _ N), G].
Qed.

Lemma underflow_small : (underflow < 1 # 1000)%Q.
Proof.
  eapply Qlt_trans; [apply (pow2_lt (-1075) (-10)); lia|]. reflexivity.
Qed.

Lemma small_is_finite (a : Q) : (a <= 1000)%Q -> (a < F64.pow2 1023)%Q.
Proof.
  intros H. eapply Qle_lt_trans; [exact H|].
  eapply Qlt_le_trans; [|apply (pow2_le 10 1023); lia]. reflexivity.
Qed.

Lemma div_nonneg (a b : Q) : (0 <= a)%Q -> (0 < b)%Q -> (0 <= a / b)%Q.
Proof. intros A B. apply Qle_shift_div_l; [exact B | lra]. Qed.

(** The quotient of the second loop. *)
Lemma truediv_near (v total : Py.num) :
  nonneg_number v -> nonneg_number total ->
  (0 < real_of total)%Q ->
  (real_of v < F64.pow2 1023)%Q -> (real_of total < F64.pow2 1023)%Q ->
  (real_of v / real_of total <= 2)%Q ->
  exists q,
    Py.truediv v total = Py.Return (Py.NFloat (F64.Fin false q))
    /\ (0 <= q)%Q /\ on_grid q
    /\ near (3 * unit_roundoff) underflow (real_of v / real_of total) q.
Proof.
  intros NV NT PT BV BT K.
  pose proof unit_roundoff_bounds as [U0 U1]. pose proof underflow_pos as D0.
  pose proof (real_of_nonneg _ NV) as RV.
  pose proof (div_nonneg _ _ RV PT) as PQ.
  assert (F : exists q,
             Py.bind (Py.to_float v)
               (λ x, Py.bind (Py.to_float total)
                  (λ y, if F64.is_zero y
                        then Py.Raise (Py.Raised Py.ZeroDivisionError
                                         "float division by zero")
                        else Py.Return (Py.NFloat (F64.div x y))))
             = Py.Return (Py.NFloat (F64.Fin false q))
             /\ (0 <= q)%Q /\ on_grid q
             /\ near (3 * unit_roundoff) underflow
                     (real_of v / real_of total) q).
  { destruct (to_float_near v NV BV) as (x & -> & X & GX & HX).
    destruct (to_float_near total NT BT) as (y & -> & Y & GY & HY).
    cbn [Py.bind F64.is_zero].
    assert (PY : (0 < y)%Q) by (apply (near_lower _ _ _ HY); lra).
    assert (ZY : Qeq_bool y 0 = false).
    { apply not_true_iff_false. rewrite Qeq_bool_iff. lra. }
    rewrite ZY. cbn [F64.div xorb]. rewrite ZY. unfold F64.rounded.
    assert (Z0 : (0 / real_of total == 0)%Q) by (field; lra).
    assert (H1 : near unit_roundoff 0
                      (real_of v / real_of total) (x / real_of total)).
    { pose proof (near_div_l _ _ _ _ _ PT HX) as H1.
      unfold near in *. rewrite Z0 in H1. exact H1. }
    assert (H2 : near unit_roundoff 0 (x / real_of total) (x / y))
      by (apply near_div_r; assumption).
    assert (PX : (0 <= x / y)%Q) by (apply div_nonneg; assumption).
    assert (H3 : near (2 * unit_roundoff) 0 (real_of v / real_of total) (x / y)).
    { assert (H3 : near (unit_roundoff + unit_roundoff) (0 + 0)
                        (real_of v / real_of total) (x / y))
        by (apply (near_trans _ _ _ _ _ (x / real_of total)); try lra;
            assumption).
      unfold near in *. destruct H3 as [H3 H4]. split; lra. }
    assert (E2 : (2 * unit_roundoff <= 1 # 2)%Q) by lra.
    pose proof (near_upper _ _ _ _ E2 PX H3) as UX.
    destruct (round_mag_finite (x / y) PX) as [q R];
      [apply small_is_finite; lra|].
    rewrite R. exists q. split; [reflexivity|].
    split; [exact (round_mag_nonneg _ _ PX R)|].
    split; [exact (round_mag_grid _ _ PX R)|].
    pose proof (near_round _ _ PX R) as H4.
    pose proof (round_mag_nonneg _ _ PX R) as Q0.
    assert (H5 : near (2 * unit_roundoff + unit_roundoff) (0 + underflow)
                      (real_of v / real_of total) q)
      by (apply (near_trans _ _ _ _ _ (x / y)); try lra; assumption).
    unfold near in *. destruct H5 as [H5 H6]. split; lra. }
  unfold Py.truediv.
  destruct (Py.as_int v) as [a|] eqn:A; [|exact F].
  destruct (Py.as_int total) as [b|] eqn:B; [|exact F].
  rewrite (real_of_int _ _ A) in *. rewrite (real_of_int _ _ B) in *.
  pose proof (nonneg_int _ _ A NV) as A0.
  assert (B0 : (0 < b)%Z) by (rewrite (Zlt_Qlt 0); exact PT).
  assert (E : (b =? 0)%Z = false) by (apply Z.eqb_neq; lia).
  rewrite E.
  rewrite (round_mag_proper (Qabs (inject_Z a / inject_Z b))
             (inject_Z a / inject_Z b))
    by (try apply Qabs_nonneg; apply Qabs_pos; exact PQ).
  destruct (round_mag_finite (inject_Z a / inject_Z b) PQ) as [q R];
    [apply small_is_finite; lra|].
  rewrite R.
  assert (LA : (a <? 0)%Z = false) by (apply Z.ltb_ge; lia).
  assert (LB : (b <? 0)%Z = false) by (apply Z.ltb_ge; lia).
  rewrite LA, LB. exists q. split; [reflexivity|].
  pose proof (round_mag_nonneg _ _ PQ R) as Q0.
  split; [exact Q0|]. split; [exact (round_mag_grid _ _ PQ R)|].
  apply (near_weaken unit_roundoff _ underflow _); try lra.
  apply near_round; assumption.
Qed.

(** The percentage the second loop stores: [value / total * 100] with
    three roundings after those of the total. *)
Lemma set_percentage_near (total : Py.num) (record : PowerRecord) (S e : Q) :
  nonneg_number total -> nonneg_number (value record) ->
  (0 < real_of (value record))%Q -> (real_of (value record) <= S)%Q ->
  (S < F64.pow2 1022)%Q ->
  (0 <= e)%Q -> (e <= 1 # 4)%Q ->
  near e 0 S (real_of total) ->
  exists p,
    set_percentage total record
    = Py.Return (mkRecord (source record) (value record)
                          (Py.NFloat (F64.Fin false p)))
    /\ (q ← Py.truediv (value record) total; Py.mul q (int_lit 100))
       = Py.Return (Py.NFloat (F64.Fin false p))
    /\ (0 <= p)%Q /\ on_grid p
    /\ near (e + 4 * unit_roundoff) (101 * underflow)
            (100 * (real_of (value record) / S)) p.
Proof.
  intros NT NV PV LV BS E0 E1 H.
  pose proof unit_roundoff_bounds as [U0 U1]. pose proof underflow_pos as D0.
  pose proof underflow_small as D1. pose proof pow2_1023 as P23.
  set (rv := real_of (value record)) in *. set (rt := real_of total) in *.
  assert (PS : (0 < S)%Q) by lra.
  assert (PT : (0 < rt)%Q) by (apply (near_lower _ _ _ H); lra).
  assert (E2 : (e <= 1 # 2)%Q) by lra.
  pose proof (near_upper _ _ _ _ E2 (Qlt_le_weak _ _ PT) H) as UT.
  assert (K1 : (rv / S <= 1)%Q) by (apply Qle_shift_div_r; lra).
  assert (P1 : (0 <= rv / S)%Q) by (apply div_nonneg; lra).
  assert (P2 : (0 <= rv / rt)%Q) by (apply div_nonneg; lra).
  assert (H1 : near e 0 (rv / S) (rv / rt))
    by (apply near_div_r; try assumption; lra).
  pose proof (near_upper _ _ _ _ E2 P2 H1) as K2.
  destruct (truediv_near (value record) total NV NT PT) as (q & T & Q0 & _ & HQ);
    fold rv rt; try lra.
  assert (H2 : near (e + 3 * unit_roundoff) (0 + underflow) (rv / S) q)
    by (apply (near_trans _ _ _ _ _ (rv / rt)); try lra; assumption).
  assert (E3 : (e + 3 * unit_roundoff <= 1 # 2)%Q) by lra.
  pose proof (near_upper _ _ _ _ E3 Q0 H2) as UQ.
  assert (H3 : near (e + 3 * unit_roundoff) (100 * (0 + underflow))
                    (100 * (rv / S)) (100 * q))
    by (apply near_scale; [lra | exact H2]).
  assert (PQ : (0 <= q * 100)%Q) by lra.
  destruct (round_mag_finite (q * 100) PQ) as [p R];
    [apply small_is_finite; lra|].
  pose proof (round_mag_nonneg _ _ PQ R) as P0.
  pose proof (near_round _ _ PQ R) as H4.
  assert (H5 : near (e + 3 * unit_roundoff) (100 * (0 + underflow))
                    (100 * (rv / S)) (q * 100)).
  { unfold near in *. destruct H3 as [H3 H3']. split; lra. }
  assert (H6 : near (e + 3 * unit_roundoff + unit_roundoff)
                    (100 * (0 + underflow) + underflow) (100 * (rv / S)) p).
  { apply (near_trans _ _ _ _ _ (q * 100)); try lra; assumption. }
  assert (M : (q' ← Py.truediv (value record) total; Py.mul q' (int_lit 100))
              = Py.Return (Py.NFloat (F64.Fin false p))).
  { rewrite T. cbn [mbind result_bind Py.bind]. rewrite mul_100_returns.
    cbn [F64.mul xorb]. unfold F64.rounded. rewrite R. reflexivity. }
  exists p. split; [|split; [exact M|]].
  - unfold set_percentage.
    rewrite (proj2 (gt_zero_nonneg total NT) PT), M. reflexivity.
  - split; [exact P0|]. split; [exact (round_mag_grid _ _ PQ R)|].
    unfold near in *. destruct H6 as [H6 H7]. split; lra.
Qed.

Lemma near_sum (e d : Q) (xs ys : list Q) :
  Forall2 (near e d) xs ys ->
  near e (inject_Z (Z.of_nat (length xs)) * d) (Qsum xs) (Qsum ys).
Proof.
  induction 1 as [|x y xs ys H _ IH].
  - cbn [length Qsum foldr]. change (inject_Z (Z.of_nat 0)) with 0%Q.
    unfold near. split; lra.
  - cbn [length Qsum foldr]. fold (Qsum xs) (Qsum ys).
    rewrite Nat2Z.inj_succ, <- Z.add_1_r, inject_Z_plus.
    change (inject_Z 1) with 1%Q.
    pose proof (near_plus _ _ _ _ _ _ _ H IH) as H'.
    unfold near in *. destruct H' as [H1 H2]. split; lra.
Qed.

Lemma Qsum_shares (S : Q) (xs : list Q) :
  ~ (S == 0)%Q ->
  (Qsum (map (λ x, 100 * (x / S)) xs) == 100 * (Qsum xs / S))%Q.
Proof.
  intros N. induction xs as [|x xs IH]; simpl.
  - field. exact N.
  - fold (Qsum xs). fold (Qsum (map (λ x, 100 * (x / S)) xs))%Q.
    rewrite IH. field. exact N.
Qed.

Lemma Qsum_member_le (xs : list Q) (x : Q) :
  Forall (λ x, (0 <= x)%Q) xs -> x ∈ xs -> (x <= Qsum xs)%Q.
Proof.
  induction 1 as [|y ys Y Ys IH]; intros I; [inversion I|].
  pose proof (Qsum_nonneg _ Ys) as N.
  apply elem_of_cons in I. destruct I as [->|I]; simpl; fold (Qsum ys).
  - lra.
  - specialize (IH I). lra.
Qed.

Lemma for_each_build {A B C} (f : B -> Py.result C) (g : A -> B)
    (P : A -> C -> Prop) xs :
  Forall (λ x, exists y, f (g x) = Py.Return y /\ P x y) xs ->
  exists ys, Py.for_each f (map g xs) = Py.Return ys /\ Forall2 P xs ys.
Proof.
  induction 1 as [|x xs (y & Fy & Py) _ (ys & Fys & Pys)]; simpl.
  - exists []. split; [reflexivity | constructor].
  - rewrite Fy, Fys. exists (y :: ys). split; [reflexivity|].
    constructor; assumption.
Qed.

Lemma kept_nonneg (mix : list (string * Py.value)) :
  Forall (λ kv, finite_number kv.2) (kept mix) ->
  Forall (λ kv, nonneg_number kv.2 /\ (0 < real_of kv.2)%Q) (kept mix).
Proof.
  intros F. pose proof (kept_positive mix) as P.
  induction F as [|kv kvs Fk _ IH]; [constructor|].
  inversion P as [|? ? Pk Pks]; subst.
  constructor; [apply finite_positive_nonneg; assumption | apply IH; exact Pks].
Qed.

(** The live branch on finite entries: it returns, the total is near the
    exact sum, and each record holds a percentage near its exact
    share. *)
Lemma live_run_near (mix : list (string * Py.value)) (timestamp : Py.value) :
  Forall (λ item, none_or_number item.2) mix ->
  Forall (λ kv, finite_number kv.2) (kept mix) ->
  (kept_count mix <= 1000000)%Q ->
  (exact_total mix < F64.pow2 1022)%Q ->
  exists records total,
    live_run mix timestamp = Py.Return (records, timestamp, total, "Live Data")
    /\ nonneg_number total
    /\ near (2 * kept_count mix * unit_roundoff) 0
            (exact_total mix) (real_of total)
    /\ Forall2 (live_record total (exact_total mix)
                            (2 * kept_count mix * unit_roundoff))
               (kept mix) records.
Proof.
  intros T F C B.
  pose proof unit_roundoff_value as UV.
  pose proof unit_roundoff_bounds as [U0 U1].
  pose proof (kept_nonneg mix F) as K.
  assert (N0 : (0 <= kept_count mix)%Q)
    by (unfold kept_count; rewrite <- (Zle_Qle 0); lia).
  set (n := kept_count mix) in *.
  assert (E1 : (2 * n * unit_roundoff <= 1 # 4)%Q) by (rewrite UV; lra).
  assert (NV : Forall nonneg_number (map snd (kept mix))).
  { apply Forall_fmap. eapply Forall_impl; [exact K|]. intros kv [H _]. exact H. }
  assert (M : map real_of (map snd (kept mix))
              = map (λ kv, real_of kv.2) (kept mix)).
  { rewrite map_map. reflexivity. }
  destruct (Py_sum_near (map snd (kept mix)) NV) as (total & S & NT & H).
  - rewrite length_map. fold (kept_count mix). fold n. lra.
  - rewrite M. exact B.
  - rewrite length_map, M in H. fold (kept_count mix) (exact_total mix) in H.
    fold n in H.
    unfold live_run. rewrite (collect_loop_typed _ _ T). cbn [fst snd app].
    unfold Py.sum in S. change (Py.NInt 0) with (int_lit 0) in S. rewrite S.
    cbn [mbind result_bind Py.bind mret result_ret].
    destruct (for_each_build (set_percentage total) fresh_record
                (live_record total (exact_total mix) (2 * n * unit_roundoff))
                (kept mix)) as (records & E & R).
    { apply Forall_forall. intros kv I.
      rewrite Forall_forall in K. destruct (K kv I) as [NK PK].
      assert (L : (real_of kv.2 <= exact_total mix)%Q).
      { unfold exact_total. apply Qsum_member_le.
        - apply Forall_fmap. apply Forall_forall. intros kv' I'.
          apply real_of_nonneg. exact (proj1 (K kv' I')).
        - apply list_elem_of_fmap. exists kv. split; [reflexivity | exact I]. }
      assert (E0 : (0 <= 2 * n * unit_roundoff)%Q)
        by (apply Qmult_le_0_compat; lra).
      destruct (set_percentage_near total (fresh_record kv)
                  (exact_total mix) (2 * n * unit_roundoff)
                  NT NK PK L B E0 E1 H)
        as (p & SP & FM & P0 & GP & HP).
      cbn [fresh_record value source] in SP, FM, HP.
      eexists. split; [exact SP|].
      split; [reflexivity|]. split; [reflexivity|].
      split; [exact FM|]. exists p.
      split; [reflexivity|]. split; [exact P0|]. split; [exact GP | exact HP]. }
    rewrite E. exists records, total. split; [reflexivity|].
    split; [exact NT|]. split; [exact H | exact R].
Qed.

Lemma live_record_nonneg total S e kvs records :
  Forall2 (live_record total S e) kvs records ->
  Forall nonneg_number (map percentage records).
Proof.
  induction 1 as [|kv r kvs records (_ & _ & _ & p & E & P & G & _) _ IH];
    [constructor|].
  cbn [map]. constructor; [|exact IH]. rewrite E. simpl. split; assumption.
Qed.

Lemma live_record_shares total (S e : Q) kvs records :
  Forall2 (live_record total S e) kvs records ->
  Forall2 (near (e + 4 * unit_roundoff) (101 * underflow))
          (map (λ x, 100 * (x / S))%Q
               (map (λ kv : string * Py.num, real_of kv.2) kvs))
          (map real_of (map percentage records)).
Proof.
  induction 1 as [|kv r kvs records (_ & _ & _ & p & E & _ & _ & H) _ IH];
    [constructor|].
  cbn [map]. constructor; [|exact IH]. rewrite E. exact H.
Qed.

(** The exact sum of the stored percentages is near 100. *)
Lemma live_percentages_near total (S e : Q) kvs records :
  (S == Qsum (map (λ kv : string * Py.num, real_of kv.2) kvs))%Q ->
  (0 < S)%Q ->
  Forall2 (live_record total S e) kvs records ->
  near (e + 4 * unit_roundoff)
       (inject_Z (Z.of_nat (length kvs)) * (101 * underflow))
       100 (Qsum (map real_of (map percentage records))).
Proof.
  intros ES PS F.
  pose proof (live_record_shares _ _ _ _ _ F) as N.
  apply near_sum in N. rewrite !length_map in N.
  assert (E : (Qsum (map (λ x, 100 * (x / S))
                      (map (λ kv : string * Py.num, real_of kv.2) kvs))
               == 100)%Q).
  { rewrite Qsum_shares by lra. rewrite <- ES. field. lra. }
  unfold near in *. rewrite E in N. exact N.
Qed.

Lemma Qsum_positive (xs : list Q) :
  xs <> [] -> Forall (λ x, (0 < x)%Q) xs -> (0 < Qsum xs)%Q.
Proof.
  intros N F. destruct F as [|x xs X Xs]; [destruct (N eq_refl)|].
  simpl. fold (Qsum xs).
  assert (P : (0 <= Qsum xs)%Q).
  { apply Qsum_nonneg. eapply Forall_impl; [exact Xs|].
    intros y Y. apply Qlt_le_weak, Y. }
  lra.
Qed.

Lemma Qsum_filter_le {A} (f : A -> Q) (P : A -> Prop)
    `{forall x, Decision (P x)} (xs : list A) :
  Forall (λ x, (0 <= f x)%Q) xs ->
  (0 <= Qsum (map f (filter P xs)))%Q
  /\ (Qsum (map f (filter P xs)) <= Qsum (map f xs))%Q.
Proof.
  induction 1 as [|x xs X _ [IH1 IH2]]; [simpl; split; lra|].
  rewrite filter_cons. destruct (decide (P x)); simpl;
    fold (Qsum (map f (filter P xs))) (Qsum (map f xs)); split; lra.
Qed.

Lemma underflow_tiny : (underflow <= 1 # 1000000000000000000000)%Q.
Proof.
  eapply Qle_trans; [apply (pow2_le (-1075) (-70)); lia|]. discriminate.
Qed.

(** The sum of the percentages of the live branch, and of any part of
    them, as [sum] computes it. *)
Lemma live_percentages_sum total (S : Q) kvs records (P : PowerRecord -> Prop)
    `{Dec : forall r, Decision (P r)} :
  let n := inject_Z (Z.of_nat (length kvs)) in
  (S == Qsum (map (λ kv : string * Py.num, real_of kv.2) kvs))%Q ->
  (0 < S)%Q -> (n <= 1000000)%Q ->
  Forall2 (live_record total S (2 * n * unit_roundoff)) kvs records ->
  (exists sum,
      Py.sum (map percentage records) = Py.Return sum
      /\ nonneg_number sum
      /\ (Qabs (real_of sum - 100) <= 1 # 1000000)%Q)
  /\ (exists part,
        Py.sum (map percentage (filter P records)) = Py.Return part
        /\ nonneg_number part
        /\ (real_of part <= 100 + (1 # 1000000))%Q).
Proof.
  intros n ES PS C F.
  pose proof unit_roundoff_value as UV. pose proof underflow_tiny as DV.
  pose proof underflow_pos as D0.
  pose proof (live_record_nonneg _ _ _ _ _ F) as NN.
  assert (NR : Forall (λ r, nonneg_number (percentage r)) records)
    by (exact (proj1 (Forall_fmap _ _ _) NN)).
  pose proof (live_percentages_near _ _ _ _ _ ES PS F) as H. fold n in H.
  assert (N0 : (0 <= n)%Q) by (unfold n; rewrite <- (Zle_Qle 0); lia).
  assert (L : length records = length kvs)
    by (symmetry; eapply Forall2_length; exact F).
  set (all := Qsum (map real_of (map percentage records))) in *.
  assert (A0 : (0 <= all)%Q) by (apply real_sum_nonneg, NN).
  assert (ND : (0 <= n * underflow)%Q) by (apply Qmult_le_0_compat; lra).
  assert (ND' : (n * underflow <= 1000000 * (1 # 1000000000000000000000))%Q).
  { eapply Qle_trans; [apply Qmult_le_compat_r; [exact C | lra]|].
    apply Qmult_le_l; [reflexivity | exact DV]. }
  assert (NU : (0 <= n * unit_roundoff)%Q)
    by (apply Qmult_le_0_compat; [exact N0 | rewrite UV; discriminate]).
  assert (NU' : (n * unit_roundoff <= 1000000 * unit_roundoff)%Q)
    by (apply Qmult_le_compat_r; [exact C | rewrite UV; discriminate]).
  assert (H' : near (1 # 1000000000) (1 # 1000000000) 100 all).
  { apply (near_weaken (2 * n * unit_roundoff + 4 * unit_roundoff) _
             (n * (101 * underflow)) _); try lra;
      first [exact H | rewrite UV in *; lra]. }
  assert (SA : (all <= 1000)%Q).
  { unfold near in H'. destruct H' as [_ H']. lra. }
  split.
  - destruct (Py_sum_near (map percentage records) NN) as (sum & E & NS & HS).
    + rewrite length_map, L. fold n. rewrite UV in *. lra.
    + fold all. eapply Qle_lt_trans; [exact SA|].
      eapply Qlt_le_trans; [|apply (pow2_le 10 1022); lia]. reflexivity.
    + exists sum. split; [exact E|]. split; [exact NS|].
      rewrite length_map, L in HS. fold n all in HS.
      pose proof (real_of_nonneg _ NS) as S0.
      assert (HS' : near (1 # 1000000000) 0 all (real_of sum)).
      { apply (near_weaken (2 * n * unit_roundoff) _ 0 _); try lra;
          first [exact HS | rewrite UV in *; lra]. }
      unfold near in H', HS'. destruct H' as [H1 H2]. destruct HS' as [H3 H4].
      apply Qabs_Qle_condition. split; lra.
  - set (sub := filter P records).
    assert (NP : Forall nonneg_number (map percentage sub)).
    { apply Forall_fmap. unfold sub. apply Forall_forall. intros r I.
      apply list_elem_of_filter in I. destruct I as [_ I].
      rewrite Forall_forall in NR. exact (NR r I). }
    assert (LS : (length sub <= length records)%nat)
      by (unfold sub; apply length_filter).
    assert (NS : (inject_Z (Z.of_nat (length sub)) <= n)%Q).
    { unfold n. rewrite <- Zle_Qle. lia. }
    assert (NS0 : (0 <= inject_Z (Z.of_nat (length sub)))%Q)
      by (rewrite <- (Zle_Qle 0); lia).
    destruct (Qsum_filter_le (λ r, real_of (percentage r)) P records)
      as [Q0 Q1].
    { eapply Forall_impl; [exact NR|].
      intros r. apply real_of_nonneg. }
    assert (M1 : map real_of (map percentage sub)
                 = map (λ r, real_of (percentage r)) sub)
      by (rewrite map_map; reflexivity).
    assert (M2 : all = Qsum (map (λ r, real_of (percentage r)) records))
      by (unfold all; rewrite map_map; reflexivity).
    fold sub in Q0, Q1. rewrite <- M2 in Q1.
    destruct (Py_sum_near (map percentage sub) NP) as (part & E & NPt & HP).
    + rewrite length_map.
      assert (X : (inject_Z (Z.of_nat (length sub)) * unit_roundoff
                   <= 1000000 * unit_roundoff)%Q).
      { apply Qmult_le_compat_r; [lra | rewrite UV; discriminate]. }
      rewrite UV in *. lra.
    + rewrite M1. eapply Qle_lt_trans; [exact Q1|].
      eapply Qle_lt_trans; [exact SA|].
      eapply Qlt_le_trans; [|apply (pow2_le 10 1022); lia]. reflexivity.
    + exists part. split; [exact E|]. split; [exact NPt|].
      rewrite length_map, M1 in HP.
      pose proof (real_of_nonneg _ NPt) as P0.
      assert (X : (inject_Z (Z.of_nat (length sub)) * unit_roundoff
                   <= 1000000 * unit_roundoff)%Q).
      { apply Qmult_le_compat_r; [lra | rewrite UV; discriminate]. }
      assert (X0 : (0 <= inject_Z (Z.of_nat (length sub)) * unit_roundoff)%Q).
      { apply Qmult_le_0_compat; [exact NS0 | rewrite UV; discriminate]. }
      assert (HP' : near (1 # 1000000000) 0
                         (Qsum (map (λ r, real_of (percentage r)) sub))
                         (real_of part)).
      { apply (near_weaken
                 (2 * inject_Z (Z.of_nat (length sub)) * unit_roundoff) _ 0 _);
          try lra; first [exact HP | rewrite UV in *; lra]. }
      unfold near in H', HP'. destruct H' as [H1 H2]. destruct HP' as [H3 H4].
      lra.
Qed.

Lemma within_range_count mix :
  within_range mix -> (kept_count mix <= 1000000)%Q.
Proof.
  intros (_ & _ & C & _). unfold kept_count.
  change 1000000%Q with (inject_Z 1000000). rewrite <- Zle_Qle. exact C.
Qed.

Lemma exact_total_positive mix :
  Forall (λ kv, finite_number kv.2) (kept mix) ->
  kept mix <> [] -> (0 < exact_total mix)%Q.
Proof.
  intros F N. unfold exact_total. apply Qsum_positive.
  - intros E. apply N. destruct (kept mix); [reflexivity | discriminate E].
  - apply Forall_fmap. eapply Forall_impl; [apply kept_nonneg, F|].
    intros kv [_ P]. exact P.
Qed.

(** ** Percentages sum to 100 *)

(** C1, as stated, fails.  Two entries of 1e308 have the total [inf] in
    binary64, which is positive; each percentage is [1e308 / inf * 100],
    that is 0.0, and the percentages sum to 0.0. *)
Lemma live_percentages_after_overflow :
  let mix := [ ("hydro", Py.Num (float_lit 1e308));
               ("wind", Py.Num (float_lit 1e308)) ] in
  let now := "2024-05-01T12:00:00" in
  exists records,
    process_kenya_data (payload mix None) true now
    = Py.Return (records, Py.Str now, Py.NFloat (F64.Inf false), "Live Data")
    /\ Py.gt (Py.NFloat (F64.Inf false)) (int_lit 0) = true
    /\ map source records = ["Hydro"; "Wind"]
    /\ map percentage records = [float_lit 0; float_lit 0]
    /\ Py.sum (map percentage records) = Py.Return (float_lit 0).
Proof.
  cbv zeta. eexists. split; [vm_compute; reflexivity|].
  split; [reflexivity|]. split; [reflexivity|].
  split; vm_compute; reflexivity.
Qed.

(** C1, amended.  On the live branch, when the entries greater than [0]
    are finite numbers, at least one and at most a million, with an
    exact sum below [2^1022], the call returns, each record holds the
    percentage [value / total * 100] as binary64 computes it, and [sum]
    over the percentages is within [1e-6] of 100. *)
Theorem live_percentages_sum_to_100
    (entries mix : list (string * Py.value)) (now : string) :
  Py.lookup breakdown_key entries = Some (Py.Dict mix) ->
  within_range mix ->
  kept mix <> [] ->
  exists records total sum,
    process_kenya_data (Py.Dict entries) true now
    = Py.Return (records, default (Py.Str now) (Py.lookup "datetime" entries),
                 total, "Live Data")
    /\ Forall2 (λ kv r,
                 value r = kv.2
                 /\ (q ← Py.truediv (value r) total; Py.mul q (int_lit 100))
                    = Py.Return (percentage r))
               (kept mix) records
    /\ Py.sum (map percentage records) = Py.Return sum
    /\ nonneg_number sum
    /\ (Qabs (real_of sum - 100) <= 1 # 1000000)%Q.
Proof.
  intros L W N. pose proof (within_range_count _ W) as C.
  destruct W as (T & F & _ & B).
  destruct (live_run_near mix (default (Py.Str now) (Py.lookup "datetime" entries))
              T F C B) as (records & total & R & NT & H & F2).
  destruct (live_percentages_sum total (exact_total mix) (kept mix) records
              (λ _, True)) as [(sum & S & NS & HS) _];
    [reflexivity | apply exact_total_positive; assumption | exact C | exact F2 |].
  exists records, total, sum.
  split; [rewrite (process_live _ _ _ L); exact R|].
  split; [|split; [exact S | split; [exact NS | exact HS]]].
  eapply Forall2_impl; [exact F2|].
  intros kv r (_ & V & M & _). split; [exact V|]. rewrite V. exact M.
Qed.

(** Scenario A: the two percentages sum to 100 up to rounding. *)
Lemma live_percentages_sum_to_100_witness :
  exists records total sum,
    process_kenya_data scenario_a true "12:00"
    = Py.Return (records, Py.Str "2024-05-01T12:00:00Z", total, "Live Data")
    /\ Py.sum (map percentage records) = Py.Return sum
    /\ (Qabs (real_of sum - 100) <= 1 # 1000000)%Q.
Proof.
  destruct (live_percentages_sum_to_100
              [ (breakdown_key, Py.Dict scenario_a_mix);
                ("datetime", Py.Str "2024-05-01T12:00:00Z") ]
              scenario_a_mix "12:00" eq_refl)
    as (records & total & sum & P & _ & S & _ & H).
  - split; [|split; [|split]].
    + apply List.Forall_cons; [right; eexists; reflexivity|].
      apply List.Forall_cons; [right; eexists; reflexivity|].
      apply List.Forall_cons; [right; eexists; reflexivity|].
      apply List.Forall_cons; [right; eexists; reflexivity|].
      apply List.Forall_nil.
    + apply List.Forall_cons; [exact I|].
      apply List.Forall_cons; [exact I|]. apply List.Forall_nil.
    + vm_compute. discriminate.
    + vm_compute. reflexivity.
  - vm_compute. discriminate.
  - exists records, total, sum. split; [exact P|]. split; [exact S | exact H].
Defined.

(** ** Renewable share *)

(** C9, as stated, fails.  For the breakdown [{hydro: 1, geothermal: 23}]
    the two percentages are 4.166666666666666 and 95.83333333333334, and
    their sum, the renewable share, is 100.00000000000001, above 100.
    On the fallback table the share is 85.10000000000001, not 85.1. *)
Lemma renewable_share_above_100 :
  let mix := [ ("hydro", Py.Num (int_lit 1));
               ("geothermal", Py.Num (int_lit 23)) ] in
  let now := "2024-05-01T12:00:00" in
  (exists records share,
      process_kenya_data (payload mix None) true now
      = Py.Return (records, Py.Str now, int_lit 24, "Live Data")
      /\ map percentage records
         = [float_lit 4.166666666666666; float_lit 95.83333333333334]
      /\ renewable_pct records = Py.Return share
      /\ share = float_lit 100.00000000000001
      /\ Py.gt share (int_lit 100) = true)
  /\ (exists result share,
        process_kenya_data Py.None_ false now = Py.Return result
        /\ renewable_pct (records_of result) = Py.Return share
        /\ share = float_lit 85.10000000000001
        /\ Py.gt share (float_lit 85.1) = true).
Proof.
  cbv zeta. split.
  - eexists _, _. split; [vm_compute; reflexivity|].
    split; [vm_compute; reflexivity|].
    split; [vm_compute; reflexivity|].
    split; vm_compute; reflexivity.
  - eexists _, _. split; [vm_compute; reflexivity|].
    split; [vm_compute; reflexivity|].
    split; vm_compute; reflexivity.
Qed.

(** C9, amended.  On the live branch, when the entries greater than [0]
    are finite numbers, at most a million, with an exact sum below
    [2^1022], the renewable share is a finite number between [0] and
    [100 + 1e-6].  On the fallback table, which every call with
    [use_live] false or [api_data] [None] returns, the share is the
    binary64 number 85.10000000000001: above 85.1, by less than
    [2^-46]. *)
Theorem renewable_share_bounds :
  (forall entries mix now,
      Py.lookup breakdown_key entries = Some (Py.Dict mix) ->
      within_range mix ->
      exists records timestamp total share,
        process_kenya_data (Py.Dict entries) true now
        = Py.Return (records, timestamp, total, "Live Data")
        /\ renewable_pct records = Py.Return share
        /\ nonneg_number share
        /\ (0 <= real_of share)%Q
        /\ (real_of share <= 100 + (1 # 1000000))%Q)
  /\ (forall api_data use_live now,
        use_live = false \/ api_data = Py.None_ ->
        exists records total s,
          process_kenya_data api_data use_live now
          = Py.Return (records, Py.Str now, total, "Estimated Data")
          /\ renewable_pct records = Py.Return (Py.NFloat (F64.Fin false s))
          /\ Py.NFloat (F64.Fin false s) = float_lit 85.10000000000001
          /\ (85.1 < s)%Q
          /\ (s - 85.1 < F64.pow2 (-46))%Q).
Proof.
  split.
  - intros entries mix now L W. pose proof (within_range_count _ W) as C.
    destruct W as (T & F & _ & B).
    destruct (live_run_near mix
                (default (Py.Str now) (Py.lookup "datetime" entries))
                T F C B) as (records & total & R & NT & H & F2).
    rewrite (process_live _ _ _ L), R.
    assert (K : kept mix = [] \/ kept mix <> [])
      by (destruct (kept mix); [left; reflexivity | right; discriminate]).
    destruct K as [K|K].
    + rewrite K in F2. inversion F2; subst. eexists _, _, _, (Py.NInt 0).
      split; [reflexivity|]. split; [reflexivity|].
      split; [simpl; lia|]. split; simpl; discriminate.
    + destruct (live_percentages_sum total (exact_total mix) (kept mix) records
                  (λ r, source r ∈ renewable_sources))
        as [_ (share & S & NS & HS)];
        [reflexivity | apply exact_total_positive; assumption
         | exact C | exact F2 |].
      eexists _, _, _, share. split; [reflexivity|].
      split; [exact S|]. split; [exact NS|].
      split; [apply real_of_nonneg, NS | exact HS].
  - intros api_data use_live now H.
    assert (C : live_condition api_data use_live = Py.Return false).
    { destruct H as [->| ->]; [reflexivity | destruct use_live; reflexivity]. }
    rewrite (process_fallback _ _ _ C), fallback_run_eq.
    eexists _, _, _. split; [reflexivity|].
    split; [vm_compute; reflexivity|].
    split; [vm_compute; reflexivity|].
    split; vm_compute; reflexivity.
Qed.

(** Scenario A, whose two sources are renewable, and a failed fetch. *)
Lemma renewable_share_bounds_witness :
  (exists records timestamp total share,
      process_kenya_data scenario_a true "12:00"
      = Py.Return (records, timestamp, total, "Live Data")
      /\ renewable_pct records = Py.Return share
      /\ (0 <= real_of share)%Q
      /\ (real_of share <= 100 + (1 # 1000000))%Q)
  /\ (exists records total,
        process_kenya_data Py.None_ true "12:00"
        = Py.Return (records, Py.Str "12:00", total, "Estimated Data")
        /\ renewable_pct records = Py.Return (float_lit 85.10000000000001)).
Proof.
  destruct renewable_share_bounds as [A B]. split.
  - destruct (A [ (breakdown_key, Py.Dict scenario_a_mix);
                  ("datetime", Py.Str "2024-05-01T12:00:00Z") ]
                scenario_a_mix "12:00" eq_refl)
      as (records & timestamp & total & share & P & S & _ & L & U).
    + split; [|split; [|split]].
      * apply List.Forall_cons; [right; eexists; reflexivity|].
        apply List.Forall_cons; [right; eexists; reflexivity|].
        apply List.Forall_cons; [right; eexists; reflexivity|].
        apply List.Forall_cons; [right; eexists; reflexivity|].
        apply List.Forall_nil.
      * apply List.Forall_cons; [exact I|].
        apply List.Forall_cons; [exact I|]. apply List.Forall_nil.
      * vm_compute. discriminate.
      * vm_compute. reflexivity.
    + exists records, timestamp, total, share. repeat split; assumption.
  - destruct (B Py.None_ true "12:00" (or_intror eq_refl))
      as (records & total & s & P & S & E & _).
    exists records, total. split; [exact P|]. rewrite <- E. exact S.
Defined.

(** * Further properties of the pipeline *)

Lemma kept_nil_iff (mix : list (string * Py.value)) :
  kept mix = [] <-> Forall (λ item, ~ strictly_positive item.2) mix.
Proof.
  induction mix as [|[raw entry] mix IH].
  - split; [constructor | reflexivity].
  - destruct (decide (strictly_positive entry)) as [P|P].
    + destruct entry as [|a| | |]; try contradiction.
      rewrite kept_cons_number. simpl in P. rewrite P. split.
      * discriminate.
      * intros F. inversion F as [|? ? N _]. destruct (N P).
    + rewrite (kept_cons_other _ _ _ P), IH. split.
      * intros F. constructor; [exact P | exact F].
      * intros F. inversion F. assumption.
Qed.

(** X2.  On the live branch the list of records of a returned result is
    empty exactly when no entry of the breakdown is a number greater
    than [0]; the total is then the [int] [0] and the label is still
    "Live Data".  When every entry is [None] or a number that is not
    greater than [0], the call does return. *)
Theorem no_records_iff_no_positive_entry
    (entries mix : list (string * Py.value)) (now : string) :
  Py.lookup breakdown_key entries = Some (Py.Dict mix) ->
  (forall result,
      process_kenya_data (Py.Dict entries) true now = Py.Return result ->
      data_source_of result = "Live Data"
      /\ (records_of result = []
          <-> Forall (λ item, ~ strictly_positive item.2) mix)
      /\ (records_of result = [] -> total_of result = int_lit 0))
  /\ (Forall (λ item, none_or_number item.2 /\ ~ strictly_positive item.2) mix ->
      process_kenya_data (Py.Dict entries) true now
      = Py.Return ([], default (Py.Str now) (Py.lookup "datetime" entries),
                   int_lit 0, "Live Data")).
Proof.
  intros L. split.
  - intros result H.
    destruct (live_records_of _ _ _ _ L H) as (total & S & T & _ & D & _ & F).
    split; [exact D|].
    assert (N : records_of result = [] <-> kept mix = []).
    { split; intros E; rewrite E in F; inversion F; reflexivity. }
    split.
    + rewrite N. apply kept_nil_iff.
    + intros E. apply N in E. rewrite E in S. simpl in S.
      injection S as <-. exact T.
  - intros F. rewrite (process_live _ _ _ L). unfold live_run.
    rewrite collect_loop_typed
      by (eapply Forall_impl; [exact F|]; intros item [T _]; exact T).
    assert (K : kept mix = []).
    { apply kept_nil_iff. eapply Forall_impl; [exact F|].
      intros item [_ P]. exact P. }
    rewrite K. reflexivity.
Qed.

(** A breakdown with a zero, a negative and a [None] entry. *)
Lemma no_records_iff_no_positive_entry_witness :
  process_kenya_data
    (payload [ ("wind", Py.Num (int_lit 0)); ("solar", Py.Num (float_lit (-5.5)));
               ("nuclear", Py.None_) ] None)
    true "12:00"
  = Py.Return ([], Py.Str "12:00", int_lit 0, "Live Data").
Proof.
  apply (proj2 (no_records_iff_no_positive_entry
                  [ (breakdown_key,
                     Py.Dict [ ("wind", Py.Num (int_lit 0));
                               ("solar", Py.Num (float_lit (-5.5)));
                               ("nuclear", Py.None_) ]) ]
                  [ ("wind", Py.Num (int_lit 0));
                    ("solar", Py.Num (float_lit (-5.5)));
                    ("nuclear", Py.None_) ]
                  "12:00" eq_refl)).
  apply List.Forall_cons;
    [split; [right; eexists; reflexivity | vm_compute; discriminate]|].
  apply List.Forall_cons;
    [split; [right; eexists; reflexivity | vm_compute; discriminate]|].
  apply List.Forall_cons; [split; [left; reflexivity | intros []]|].
  apply List.Forall_nil.
Defined.

Lemma round_mag_one (a : Q) : (a == 1)%Q -> F64.round_mag a = Some 1%Q.
Proof.
  intros E. rewrite (round_mag_proper a 1) by (rewrite ?E; lra || exact E).
  vm_compute. reflexivity.
Qed.

Lemma rounded_hundred :
  F64.mul (F64.Fin false 1) (F64.Fin false 100) = F64.Fin false 100.
Proof. vm_compute. reflexivity. Qed.

(** The percentage of a value under a total equal to it. *)
Lemma set_percentage_whole (v total : Py.num) (name : string) (p0 : Py.num) :
  finite_number v -> Py.gt v (int_lit 0) = true ->
  Py.add (int_lit 0) v = Py.Return total ->
  Py.exact total = Py.exact v
  /\ set_percentage total (mkRecord name v p0)
     = Py.Return (mkRecord name v (Py.NFloat (F64.Fin false 100))).
Proof.
  intros F G A.
  destruct (Py.as_int v) as [z|] eqn:Z.
  - pose proof (proj1 (gt_zero_int _ _ Z) G) as P.
    unfold Py.add in A. cbn [Py.as_int int_lit] in A. rewrite Z in A.
    injection A as <-. rewrite Z.add_0_l.
    assert (E : Py.exact (Py.NInt z) = Py.exact v).
    { destruct v as [b|n|x]; try discriminate Z; simpl in Z; injection Z as <-.
      - destruct b; [reflexivity | simpl in P; lia].
      - reflexivity. }
    split; [exact E|].
    unfold set_percentage. cbn [value source].
    rewrite (proj2 (gt_zero_int (Py.NInt z) z eq_refl) P).
    unfold Py.truediv. rewrite Z. cbn [Py.as_int].
    assert (N : (z =? 0)%Z = false) by (apply Z.eqb_neq; lia).
    rewrite N.
    assert (Q1 : (Qabs (inject_Z z / inject_Z z) == 1)%Q).
    { assert (I : (0 < inject_Z z)%Q) by (rewrite <- (Zlt_Qlt 0); exact P).
      assert (D : (inject_Z z / inject_Z z == 1)%Q) by (field; lra).
      rewrite D. reflexivity. }
    rewrite (round_mag_one _ Q1). rewrite xorb_nilpotent.
    cbn [mbind result_bind Py.bind]. rewrite mul_100_returns, rounded_hundred.
    reflexivity.
  - destruct v as [b|n|[|s|s a]]; try discriminate Z; try (simpl in F; tauto).
    destruct (finite_positive_nonneg _ F G) as [N P].
    destruct s; [simpl in N; tauto|]. simpl in F. destruct F as [A0 R].
    cbn [real_of F64.signed] in P.
    unfold Py.add in A. cbn [Py.as_int int_lit Py.to_float Py.bind] in A.
    change (Py.float_of_int 0) with (Py.Return (F64.Fin false 0)) in A.
    cbn [Py.bind F64.add F64.signed] in A.
    assert (NZ : Qeq_bool (0 + a) 0 = false).
    { apply not_true_iff_false. rewrite Qeq_bool_iff. lra. }
    assert (LE : Qle_bool 0 (0 + a) = true) by (apply Qle_bool_iff; lra).
    rewrite NZ, LE in A. cbn [negb] in A. unfold F64.rounded in A.
    rewrite (round_mag_proper (Qabs (0 + a)) a) in A
      by (try apply Qabs_nonneg; rewrite Qabs_pos; lra).
    rewrite R in A. injection A as <-. split; [reflexivity|].
    unfold set_percentage. cbn [value source]. rewrite G.
    unfold Py.truediv. cbn [Py.as_int Py.to_float Py.bind F64.is_zero].
    assert (NA : Qeq_bool a 0 = false).
    { apply not_true_iff_false. rewrite Qeq_bool_iff. lra. }
    rewrite NA. cbn [mbind result_bind Py.bind F64.div xorb]. rewrite NA.
    unfold F64.rounded.
    assert (Q1 : (a / a == 1)%Q) by (field; lra).
    rewrite (round_mag_one _ Q1). rewrite mul_100_returns, rounded_hundred.
    reflexivity.
Qed.

(** X3.  When exactly one entry of the breakdown is a number greater
    than [0], and it is finite, the result has the single record of that
    entry, with the percentage 100.0 exactly, and the total equals the
    value of the entry. *)
Theorem single_positive_entry
    (entries mix : list (string * Py.value)) (now : string)
    (raw : string) (v : Py.num) :
  Py.lookup breakdown_key entries = Some (Py.Dict mix) ->
  Forall (λ item, none_or_number item.2) mix ->
  filter (λ item, strictly_positive item.2) mix = [(raw, Py.Num v)] ->
  finite_number v ->
  exists total,
    process_kenya_data (Py.Dict entries) true now
    = Py.Return ([mkRecord (display_name raw) v (float_lit 100)],
                 default (Py.Str now) (Py.lookup "datetime" entries),
                 total, "Live Data")
    /\ Py.exact total = Py.exact v.
Proof.
  intros L T F FV.
  assert (K : kept mix = [(raw, v)]).
  { pose proof (kept_filter mix) as KF. rewrite F in KF.
    inversion KF as [|? kv ? kvs E KF']; subst. inversion KF'; subst.
    destruct kv as [raw' v']. cbn [fst snd] in E. injection E as -> ->.
    reflexivity. }
  assert (G : Py.gt v (int_lit 0) = true).
  { pose proof (kept_positive mix) as P. rewrite K in P.
    inversion P; assumption. }
  rewrite (process_live _ _ _ L). unfold live_run.
  rewrite (collect_loop_typed _ _ T), K. cbn [map fst snd app Py.for_state].
  destruct (Py.add (int_lit 0) v) as [total|e] eqn:A.
  - destruct (set_percentage_whole v total (display_name raw) (int_lit 0) FV G A)
      as [E S].
    cbn [mbind result_bind Py.bind mret result_ret Py.for_each].
    unfold fresh_record. cbn [fst snd]. rewrite S.
    exists total. split; [reflexivity | exact E].
  - exfalso. destruct (finite_positive_nonneg _ FV G) as [N _].
    unfold Py.add in A. cbn [Py.as_int int_lit] in A.
    destruct v as [b|n|[|s|[|] a]]; try discriminate A; simpl in N; tauto.
Qed.

Lemma single_positive_entry_witness :
  exists total,
    process_kenya_data
      (payload [("wind", Py.Num (int_lit 0)); ("hydro", Py.Num (float_lit 7.5))]
               None)
      true "12:00"
    = Py.Return ([mkRecord "Hydro" (float_lit 7.5) (float_lit 100)],
                 Py.Str "12:00", total, "Live Data")
    /\ Py.exact total = Py.exact (float_lit 7.5).
Proof.
  apply (single_positive_entry
           [ (breakdown_key,
              Py.Dict [ ("wind", Py.Num (int_lit 0));
                        ("hydro", Py.Num (float_lit 7.5)) ]) ]
           [("wind", Py.Num (int_lit 0)); ("hydro", Py.Num (float_lit 7.5))]
           "12:00" "hydro" (float_lit 7.5) eq_refl).
  - apply List.Forall_cons; [right; eexists; reflexivity|].
    apply List.Forall_cons; [right; eexists; reflexivity|].
    apply List.Forall_nil.
  - reflexivity.
  - vm_compute. split; [discriminate | reflexivity].
Defined.

(** ** Invariants of the records *)

Lemma live_record_bounds total (S e : Q) kv r :
  (0 < S)%Q -> (0 <= real_of kv.2)%Q -> (real_of kv.2 <= S)%Q ->
  (0 <= e)%Q -> (e + 4 * unit_roundoff <= 1 # 1000000000)%Q ->
  live_record total S e kv r ->
  exists p,
    percentage r = Py.NFloat (F64.Fin false p)
    /\ (0 <= p)%Q /\ (p <= 100 + (1 # 1000000))%Q.
Proof.
  intros PS V0 VS E0 E1 (_ & _ & _ & p & E & P0 & _ & H).
  exists p. split; [exact E|]. split; [exact P0|].
  pose proof underflow_tiny as DV. pose proof underflow_pos as D0.
  assert (K0 : (0 <= real_of kv.2 / S)%Q) by (apply div_nonneg; assumption).
  assert (K1 : (real_of kv.2 / S <= 1)%Q) by (apply Qle_shift_div_r; lra).
  assert (H' : near (1 # 1000000000) (1 # 1000000000)
                    (100 * (real_of kv.2 / S)) p).
  { apply (near_weaken (e + 4 * unit_roundoff) _ (101 * underflow) _);
      try lra. exact H. }
  unfold near in H'. destruct H' as [_ H']. lra.
Qed.

(** X1.  On the live branch, for entries within the range of the error
    bounds, every record has a value greater than [0] and a percentage
    that is a finite [float] between [0] and [100 + 1e-6]; every record
    of the fallback table has a value greater than [0] and a percentage
    strictly between [0] and [100]. *)
Theorem records_within_bounds :
  (forall entries mix now,
      Py.lookup breakdown_key entries = Some (Py.Dict mix) ->
      within_range mix ->
      exists records timestamp total,
        process_kenya_data (Py.Dict entries) true now
        = Py.Return (records, timestamp, total, "Live Data")
        /\ Forall (λ r, Py.gt (value r) (int_lit 0) = true
                        /\ exists p,
                            percentage r = Py.NFloat (F64.Fin false p)
                            /\ (0 <= p)%Q /\ (p <= 100 + (1 # 1000000))%Q)
                  records)
  /\ Forall (λ r, Py.gt (value r) (int_lit 0) = true
                  /\ exists p,
                      percentage r = Py.NFloat (F64.Fin false p)
                      /\ (0 < p)%Q /\ (p < 100)%Q)
            fallback_records.
Proof.
  split.
  - intros entries mix now L W. pose proof (within_range_count _ W) as C.
    destruct W as (T & F & _ & B).
    destruct (live_run_near mix
                (default (Py.Str now) (Py.lookup "datetime" entries))
                T F C B) as (records & total & R & NT & H & F2).
    rewrite (process_live _ _ _ L), R.
    eexists _, _, _. split; [reflexivity|].
    apply Forall_forall. intros r I.
    destruct (Forall2_elem_r _ _ _ _ F2 I) as (kv & K & LR).
    pose proof (kept_nonneg mix F) as KN. pose proof (kept_positive mix) as KP.
    rewrite Forall_forall in KN, KP. destruct (KN kv K) as [NK PK].
    split.
    + destruct LR as (_ & -> & _). exact (KP kv K).
    + assert (N0 : (0 <= kept_count mix)%Q)
        by (unfold kept_count; rewrite <- (Zle_Qle 0); lia).
      pose proof unit_roundoff_value as UV.
      apply (live_record_bounds total (exact_total mix)
               (2 * kept_count mix * unit_roundoff) kv r).
      * apply exact_total_positive; [exact F|]. intros E. rewrite E in K.
        inversion K.
      * lra.
      * unfold exact_total. apply Qsum_member_le.
        -- apply Forall_fmap. apply Forall_forall. intros kv' I'.
           apply real_of_nonneg. exact (proj1 (KN kv' I')).
        -- apply list_elem_of_fmap. exists kv. split; [reflexivity | exact K].
      * rewrite UV. apply Qmult_le_0_compat; [lra | discriminate].
      * rewrite UV in *. lra.
      * exact LR.
  - repeat (apply List.Forall_cons;
            [split; [vm_compute; reflexivity
                    | eexists; split; [vm_compute; reflexivity
                                      | split; vm_compute; reflexivity]]|]).
    apply List.Forall_nil.
Qed.

(** Scenario A: two records, both within the bounds. *)
Lemma records_within_bounds_witness :
  exists records timestamp total,
    process_kenya_data scenario_a true "12:00"
    = Py.Return (records, timestamp, total, "Live Data")
    /\ Forall (λ r, Py.gt (value r) (int_lit 0) = true
                    /\ exists p,
                        percentage r = Py.NFloat (F64.Fin false p)
                        /\ (0 <= p)%Q /\ (p <= 100 + (1 # 1000000))%Q)
              records.
Proof.
  apply (proj1 records_within_bounds
           [ (breakdown_key, Py.Dict scenario_a_mix);
             ("datetime", Py.Str "2024-05-01T12:00:00Z") ]
           scenario_a_mix "12:00" eq_refl).
  split; [|split; [|split]].
  - apply List.Forall_cons; [right; eexists; reflexivity|].
    apply List.Forall_cons; [right; eexists; reflexivity|].
    apply List.Forall_cons; [right; eexists; reflexivity|].
    apply List.Forall_cons; [right; eexists; reflexivity|].
    apply List.Forall_nil.
  - apply List.Forall_cons; [exact I|].
    apply List.Forall_cons; [exact I|]. apply List.Forall_nil.
  - vm_compute. discriminate.
  - vm_compute. reflexivity.
Defined.

(** ** A breakdown of renewable sources only *)





(** ** The page as a whole *)

Lemma contains_true_truthy (data : Py.value) :
  Py.contains breakdown_key data = Py.Return true -> Py.truthy data = true.
Proof.
  destruct data as [|a|s|items|entries]; try discriminate.
  - destruct s; [discriminate | reflexivity].
  - destruct items; [discriminate | reflexivity].
  - destruct entries; [discriminate | reflexivity].
Qed.

Lemma fetch_cases (requests_get : Py.result Response) :
  (exists data,
      requests_get = Py.Return (mkResponse 200 (Py.Return data))
      /\ Py.contains breakdown_key data = Py.Return true
      /\ (get_kenya_power_data requests_get).1 = (data, true))
  \/ ((get_kenya_power_data requests_get).1 = (Py.None_, false)
      /\ ~ exists data,
            requests_get = Py.Return (mkResponse 200 (Py.Return data))
            /\ Py.contains breakdown_key data = Py.Return true).
Proof.
  destruct requests_get as [[status body]|e].
  2:{ right. split; [reflexivity|]. intros (data & H & _). discriminate H. }
  destruct (Z.eq_dec status 200%Z) as [->|NE].
  2:{ right. split.
      - unfold get_kenya_power_data. simpl.
        apply Z.eqb_neq in NE. rewrite NE. reflexivity.
      - intros (data & H & _). injection H as H _. contradiction. }
  destruct body as [data|e].
  2:{ right. split; [reflexivity|]. intros (data & H & _). discriminate H. }
  unfold get_kenya_power_data, get_kenya_power_data_try.
  cbn [mbind result_bind Py.bind status_code json Z.eqb Pos.eqb].
  fold breakdown_key.
  destruct (Py.contains breakdown_key data) as [[|]|e] eqn:C.
  - left. exists data. repeat split. exact C.
  - right. split; [reflexivity|].
    intros (data' & H & C'). injection H as <-. congruence.
  - right. split; [reflexivity|].
    intros (data' & H & C'). injection H as <-. congruence.
Qed.

(** X7.  A page that gets a result is labelled "Live Data" exactly when
    the fetch succeeded, that is when the response has status 200 and
    the membership test on its decoded body is true.  In every other
    case the page does get a result: the 8 fallback records, labelled
    "Estimated Data" and stamped with the clock reading. *)
Theorem dashboard_live_iff_fetch_succeeds
    (requests_get : Py.result Response) (now : string) :
  (forall result,
      dashboard requests_get now = Py.Return result ->
      (data_source_of result = "Live Data"
       <-> (get_kenya_power_data requests_get).1.2 = true)
      /\ (data_source_of result = "Live Data"
          <-> exists data,
                requests_get = Py.Return (mkResponse 200 (Py.Return data))
                /\ Py.contains breakdown_key data = Py.Return true)
      /\ (data_source_of result <> "Live Data" ->
          data_source_of result = "Estimated Data"
          /\ timestamp_of result = Py.Str now
          /\ map source (records_of result) = map fst KENYA_ENERGY_MIX))
  /\ ((get_kenya_power_data requests_get).1.2 = false ->
      dashboard requests_get now
      = Py.Return (fallback_records, Py.Str now, fallback_total,
                   "Estimated Data")).
Proof.
  split.
  - intros result. unfold dashboard.
    destruct (fetch_cases requests_get) as [(data & R & C & E) | [E N]].
    + destruct (get_kenya_power_data requests_get) as [[api_data flag] w].
      cbn [fst snd] in *. injection E as -> ->. intros H.
      destruct (process_inversion _ _ _ _ H)
        as [[LC _] | (entries & mix & -> & _ & L & RN)].
      * unfold live_condition in LC.
        rewrite (contains_true_truthy _ C) in LC. fold breakdown_key in LC.
        congruence.
      * apply live_run_returns in RN.
        destruct RN as (records & total & -> & _).
        unfold data_source_of. cbn [fst snd].
        split; [tauto|]. split; [|congruence].
        split; [|reflexivity]. intros _. exists (Py.Dict entries).
        split; [exact R | exact C].
    + destruct (get_kenya_power_data requests_get) as [[api_data flag] w].
      cbn [fst snd] in *. injection E as -> ->.
      rewrite (process_fallback Py.None_ false now eq_refl), fallback_run_eq.
      intros H. injection H as <-.
      unfold data_source_of, timestamp_of, records_of. cbn [fst snd].
      split; [split; discriminate|].
      split; [split; [discriminate | intros H; destruct (N H)]|].
      intros _. repeat split.
  - intros F. rewrite (dashboard_after_failure _ _ F). apply fallback_run_eq.
Qed.

(** Scenario A fetched with status 200, and a timeout. *)
Lemma dashboard_live_iff_fetch_succeeds_witness :
  dashboard (Py.Return (mkResponse 200 (Py.Return scenario_a))) "12:00"
  = Py.Return scenario_a_snapshot
  /\ (get_kenya_power_data
        (Py.Return (mkResponse 200 (Py.Return scenario_a)))).1.2 = true
  /\ dashboard (Py.Raise (Py.Raised Py.Exception "timeout")) "12:00"
     = Py.Return (fallback_records, Py.Str "12:00", fallback_total,
                  "Estimated Data").
Proof.
  split; [reflexivity|]. split.
  - apply (proj1 (dashboard_live_iff_fetch_succeeds
                    (Py.Return (mkResponse 200 (Py.Return scenario_a))) "12:00")
                 scenario_a_snapshot eq_refl).
    reflexivity.
  - apply (proj2 (dashboard_live_iff_fetch_succeeds
                    (Py.Raise (Py.Raised Py.Exception "timeout")) "12:00")).
    reflexivity.
Defined.

(** ** Rounding is monotone *)






(** ** The detailed breakdown table of the page *)




Lemma round_float_nan : round_float 1 F64.NaN = F64.NaN.
Proof. reflexivity. Qed.


Lemma le_nn_not_nan (x y : F64.t) : le_nn x y -> F64.is_nan x = false.
Proof. destruct x as [|[|]|[|] a], y as [|[|]|[|] b]; simpl; tauto. Qed.



Lemma lt_false_iff (x y : F64.t) :
  F64.is_nan x = false -> F64.is_nan y = false ->
  F64.lt x y = false <->
  match x, y with
  | F64.Inf s, F64.Inf s' => s = false \/ s' = true
  | F64.Inf s, F64.Fin _ _ => s = false
  | F64.Fin _ _, F64.Inf s' => s' = true
  | F64.Fin s a, F64.Fin s' b => (F64.signed s' b <= F64.signed s a)%Q
  | _, _ => True
  end.
Proof.
  destruct x as [|s|s a], y as [|s'|s' b]; simpl; try discriminate; intros _ _.
  - destruct s, s'; simpl; intuition discriminate.
  - reflexivity.
  - rewrite negb_false_iff. reflexivity.
  - rewrite negb_false_iff, Qle_bool_iff. reflexivity.
Qed.

#[export] Instance desc_trans : Transitive desc.
Proof.
  intros x y z [NY|[NX XY]] [NZ|[NY' YZ]].
  - left. exact NZ.
  - congruence.
  - left. exact NZ.
  - destruct (F64.is_nan z) eqn:NZ; [left; exact NZ|]. right.
    split; [exact NX|].
    apply (lt_false_iff x y NX NY') in XY.
    apply (lt_false_iff y z NY' NZ) in YZ.
    apply (lt_false_iff x z NX NZ).
    destruct x as [|s|s a], y as [|s'|s' b], z as [|s''|s'' c];
      try discriminate; try exact I;
      repeat match goal with
        | H : _ \/ _ |- _ => destruct H
        end; subst; try discriminate; try tauto; try lra.
Qed.

#[export] Instance desc_total : Total desc.
Proof.
  intros x y. unfold desc.
  destruct (F64.is_nan y) eqn:NY; [left; left; reflexivity|].
  destruct (F64.is_nan x) eqn:NX; [right; left; reflexivity|].
  destruct (F64.lt x y) eqn:XY; [|left; right; split; reflexivity].
  right. right. split; [reflexivity|].
  apply (lt_false_iff y x NY NX).
  destruct x as [|s|s a], y as [|s'|s' b]; try discriminate; simpl in XY.
  - destruct s, s'; simpl in XY; try discriminate. right. reflexivity.
  - exact XY.
  - apply negb_true_iff in XY. destruct s'; [discriminate | reflexivity].
  - apply negb_true_iff, not_true_iff_false in XY.
    rewrite Qle_bool_iff in XY. lra.
Qed.

#[export] Instance by_percentage_desc_trans : Transitive by_percentage_desc.
Proof. intros a b c. unfold by_percentage_desc. apply desc_trans. Qed.

#[export] Instance by_percentage_desc_total : Total by_percentage_desc.
Proof. intros a b. unfold by_percentage_desc. apply desc_total. Qed.









